(** * MFA energy-savings engine: a shallow embedding of [Final_Model.py]

    The calculation engine of the repository ([BuildingConfig],
    [InterventionConfig], [CostFactors] and the methods of
    [MFAEnergySavingsTool]) is embedded below, definition by definition.

    Numbers.  Python floats (and the ints the sliders produce) are embedded
    as exact rationals [Q]; rounding is abstracted away, equalities between
    computed quantities are therefore stated with [==].  The one non-finite
    value the engine ever builds on purpose, [float('inf')], is a constructor
    of its own ([PosInf]).

    Errors.  A Python true division [x / y] raises [ZeroDivisionError] when
    [y] is zero, and a subscript [d[k]] raises [KeyError] when [k] is not a
    key of [d]; both are kept in the embedding through the [result] monad.
    A division by a non-zero literal ([/ 100.0]) is written with [Qdiv]. *)

From Stdlib Require Import QArith Qabs Qminmax Lqa.
From Stdlib Require PrimFloat.
From stdpp Require Import gmap strings.

Local Open Scope Q_scope.

(** ** Python values and exceptions *)

Inductive exn : Type :=
  | ZeroDivisionError
  | KeyError (key : string).

Inductive result (A : Type) : Type :=
  | Ok (a : A)
  | Raise (e : exn).

Arguments Ok {A} a.
Arguments Raise {A} e.

(** Sequencing: an exception aborts what follows.  The instances give
    stdpp's [x ← m; k] notation. *)
#[export] Instance result_ret : MRet result := fun A a => Ok a.

#[export] Instance result_bind : MBind result := fun A B k m =>
  match m with
  | Ok a => k a
  | Raise e => Raise e
  end.

(** [x / y] on floats. *)
Definition py_div (x y : Q) : result Q :=
  if Qeq_bool y 0 then Raise ZeroDivisionError else Ok (x / y).

(** [x > y]. *)
Definition py_gt (x y : Q) : bool := negb (Qle_bool x y).

(** [min(a, b)] and [max(a, b)]: the first argument is kept unless the
    second is strictly smaller (resp. strictly greater). *)
Definition py_min (a b : Q) : Q := if py_gt a b then b else a.
Definition py_max (a b : Q) : Q := if py_gt b a then b else a.

(** A float that may be [float('inf')]. *)
Inductive pyfloat : Type :=
  | Fin (q : Q)
  | PosInf.

(** Dictionaries keyed by strings: [k in d], [d[k]] and [d.get(k, dflt)]. *)
Definition py_in {V : Type} (k : string) (d : gmap string V) : bool :=
  match d !! k with
  | Some _ => true
  | None => false
  end.

Definition py_getitem {V : Type} (d : gmap string V) (k : string) : result V :=
  match d !! k with
  | Some v => Ok v
  | None => Raise (KeyError k)
  end.

Definition py_get {V : Type} (d : gmap string V) (k : string) (dflt : V) : V :=
  match d !! k with
  | Some v => v
  | None => dflt
  end.

(** Dictionary literals whose iteration order matters are association
    lists in insertion order. *)
Fixpoint alist_get {V : Type} (l : list (string * V)) (k : string) : option V :=
  match l with
  | [] => None
  | (k', v) :: l' => if String.eqb k k' then Some v else alist_get l' k
  end.

Definition alist_getitem {V : Type} (l : list (string * V)) (k : string) : result V :=
  match alist_get l k with
  | Some v => Ok v
  | None => Raise (KeyError k)
  end.

(** ** Configuration records *)

Record BuildingConfig : Type := {
  total_area : Q;
  exhibition_percent : Q;
  old_building_percent : Q;
  new_building_percent : Q;
  total_site_energy : Q;
  eui : Q;
  hvac_percent : Q;
  lighting_percent : Q;
  other_percent : Q;
  current_led_percentage : Q;
  new_building_efficiency_factor : Q;
  fan_percent_of_hvac : Q
}.

Definition default_BuildingConfig : BuildingConfig := {|
  total_area := 630800;
  exhibition_percent := 0.49;
  old_building_percent := 0.78;
  new_building_percent := 0.22;
  total_site_energy := 176424575;
  eui := 279.7;
  hvac_percent := 0.85;
  lighting_percent := 0.05;
  other_percent := 0.10;
  current_led_percentage := 0.70;
  new_building_efficiency_factor := 0.85;
  fan_percent_of_hvac := 0.25
|}.

Record InterventionConfig : Type := {
  hvac_rightsizing_factor : Q;
  humidity_control_factor : Q;
  vfd_factor : Q;
  led_conversion_factor : Q;
  window_upgrade_factor : Q
}.

Definition default_InterventionConfig : InterventionConfig := {|
  hvac_rightsizing_factor := 0.30;
  humidity_control_factor := 0.10;
  vfd_factor := 0.40;
  led_conversion_factor := 0.70;
  window_upgrade_factor := 0.10
|}.

Record CostFactors : Type := {
  elec_rate : Q;
  gas_rate : Q;
  kbtu_to_kwh : Q;
  kbtu_to_therm : Q;
  co2_factor_elec : Q;
  co2_factor_gas : Q
}.

Definition default_CostFactors : CostFactors := {|
  elec_rate := 0.305;
  gas_rate := 2.51;
  kbtu_to_kwh := 3.412;
  kbtu_to_therm := 100;
  co2_factor_elec := 0.0002628;
  co2_factor_gas := 0.0001812
|}.

(** ** The engine object

    [config], [interventions_config] and the attributes that [__init__],
    [calculate_energy_allocation] and [calculate_end_use_breakdown] set on
    [self]. *)

Record MFAEnergySavingsTool : Type := {
  config : BuildingConfig;
  interventions_config : InterventionConfig;
  exhibition_area : Q;
  old_building_area : Q;
  new_building_area : Q;
  exhibition_energy : Q;
  old_building_energy : Q;
  new_building_energy : Q;
  old_building_hvac : Q;
  old_building_lighting : Q;
  old_building_other : Q;
  old_building_fan : Q;
  new_building_hvac : Q;
  new_building_lighting : Q;
  new_building_other : Q;
  new_building_fan : Q;
  total_hvac : Q;
  total_lighting : Q;
  total_other : Q;
  total_fan : Q
}.

(** What [calculate_energy_allocation] stores on [self]. *)
Record EnergyAllocation : Type := {
  alloc_exhibition_energy : Q;
  alloc_old_building_energy : Q;
  alloc_new_building_energy : Q
}.

Definition calculate_energy_allocation
    (cfg : BuildingConfig) (old_area new_area : Q) : result EnergyAllocation :=
  let exhibition_energy := total_site_energy cfg * exhibition_percent cfg in
  let effective_old_area := old_area in
  let effective_new_area := new_area * new_building_efficiency_factor cfg in
  let total_effective_area := effective_old_area + effective_new_area in
  old_share ← py_div effective_old_area total_effective_area;
  new_share ← py_div effective_new_area total_effective_area;
  Ok {| alloc_exhibition_energy := exhibition_energy;
        alloc_old_building_energy := exhibition_energy * old_share;
        alloc_new_building_energy := exhibition_energy * new_share |}.

(** What [calculate_end_use_breakdown] stores on [self]. *)
Record EndUseBreakdown : Type := {
  eu_old_building_hvac : Q;
  eu_old_building_lighting : Q;
  eu_old_building_other : Q;
  eu_old_building_fan : Q;
  eu_new_building_hvac : Q;
  eu_new_building_lighting : Q;
  eu_new_building_other : Q;
  eu_new_building_fan : Q;
  eu_total_hvac : Q;
  eu_total_lighting : Q;
  eu_total_other : Q;
  eu_total_fan : Q
}.

Definition calculate_end_use_breakdown
    (cfg : BuildingConfig) (old_energy new_energy : Q) : EndUseBreakdown :=
  let old_building_hvac := old_energy * hvac_percent cfg in
  let old_building_lighting := old_energy * lighting_percent cfg in
  let old_building_other := old_energy * other_percent cfg in
  let old_building_fan := old_building_hvac * fan_percent_of_hvac cfg in
  let new_building_hvac := new_energy * hvac_percent cfg in
  let new_building_lighting := new_energy * lighting_percent cfg in
  let new_building_other := new_energy * other_percent cfg in
  let new_building_fan := new_building_hvac * fan_percent_of_hvac cfg in
  {| eu_old_building_hvac := old_building_hvac;
     eu_old_building_lighting := old_building_lighting;
     eu_old_building_other := old_building_other;
     eu_old_building_fan := old_building_fan;
     eu_new_building_hvac := new_building_hvac;
     eu_new_building_lighting := new_building_lighting;
     eu_new_building_other := new_building_other;
     eu_new_building_fan := new_building_fan;
     eu_total_hvac := old_building_hvac + new_building_hvac;
     eu_total_lighting := old_building_lighting + new_building_lighting;
     eu_total_other := old_building_other + new_building_other;
     eu_total_fan := old_building_fan + new_building_fan |}.

(** [__init__]: the derived areas, then the energy allocation (which may
    raise), then the end-use breakdown. *)
Definition MFAEnergySavingsTool_init
    (cfg : BuildingConfig) (icfg : InterventionConfig) : result MFAEnergySavingsTool :=
  let exhibition_area := total_area cfg * exhibition_percent cfg in
  let old_building_area := exhibition_area * old_building_percent cfg in
  let new_building_area := exhibition_area * new_building_percent cfg in
  alloc ← calculate_energy_allocation cfg old_building_area new_building_area;
  let eu := calculate_end_use_breakdown cfg (alloc_old_building_energy alloc)
                                        (alloc_new_building_energy alloc) in
  Ok {| config := cfg;
        interventions_config := icfg;
        exhibition_area := exhibition_area;
        old_building_area := old_building_area;
        new_building_area := new_building_area;
        exhibition_energy := alloc_exhibition_energy alloc;
        old_building_energy := alloc_old_building_energy alloc;
        new_building_energy := alloc_new_building_energy alloc;
        old_building_hvac := eu_old_building_hvac eu;
        old_building_lighting := eu_old_building_lighting eu;
        old_building_other := eu_old_building_other eu;
        old_building_fan := eu_old_building_fan eu;
        new_building_hvac := eu_new_building_hvac eu;
        new_building_lighting := eu_new_building_lighting eu;
        new_building_other := eu_new_building_other eu;
        new_building_fan := eu_new_building_fan eu;
        total_hvac := eu_total_hvac eu;
        total_lighting := eu_total_lighting eu;
        total_other := eu_total_other eu;
        total_fan := eu_total_fan eu |}.

(** ** [calculate_baseline] *)

Record BaselineReport : Type := {
  Total_Area : Q;
  Exhibition_Area : Q;
  Old_Building_Exhibition_Area : Q;
  New_Building_Exhibition_Area : Q;
  Total_Energy : Q;
  Exhibition_Energy : Q;
  Old_Building_Energy : Q;
  New_Building_Energy : Q;
  EUI : Q;
  New_Building_Efficiency_Factor : Q;
  Effective_New_Building_Area : Q;
  Old_Building_EUI : Q;
  New_Building_EUI : Q;
  EUI_Ratio : Q
}.

Definition calculate_baseline (self : MFAEnergySavingsTool) : result BaselineReport :=
  let effective_new_area :=
    new_building_area self * new_building_efficiency_factor (config self) in
  old_building_eui ←
    (if py_gt (old_building_area self) 0
     then py_div (old_building_energy self) (old_building_area self)
     else Ok 0);
  new_building_eui ←
    (if py_gt (new_building_area self) 0
     then py_div (new_building_energy self) (new_building_area self)
     else Ok 0);
  eui_ratio ←
    (if py_gt old_building_eui 0
     then py_div new_building_eui old_building_eui
     else Ok 0);
  Ok {| Total_Area := total_area (config self);
        Exhibition_Area := exhibition_area self;
        Old_Building_Exhibition_Area := old_building_area self;
        New_Building_Exhibition_Area := new_building_area self;
        Total_Energy := total_site_energy (config self);
        Exhibition_Energy := exhibition_energy self;
        Old_Building_Energy := old_building_energy self;
        New_Building_Energy := new_building_energy self;
        EUI := eui (config self);
        New_Building_Efficiency_Factor := new_building_efficiency_factor (config self);
        Effective_New_Building_Area := effective_new_area;
        Old_Building_EUI := old_building_eui;
        New_Building_EUI := new_building_eui;
        EUI_Ratio := eui_ratio |}.

(** ** Per-measure savings

    An intervention selection is a dictionary from measure names to
    dictionaries from zone names (['old'], ['new']) to adoption percentages. *)

Abbreviation InterventionSelection := (gmap string (gmap string Q)).

Definition _calculate_hvac_rightsizing_savings
    (self : MFAEnergySavingsTool) (interventions : InterventionSelection) : result Q :=
  if negb (py_in "hvac_rightsizing" interventions) then Ok 0 else
  d_old ← py_getitem interventions "hvac_rightsizing";
  let old_impl := py_get d_old "old" 0 / 100 in
  d_new ← py_getitem interventions "hvac_rightsizing";
  let new_impl := py_get d_new "new" 0 / 100 in
  Ok (old_building_hvac self * hvac_rightsizing_factor (interventions_config self) * old_impl +
      new_building_hvac self * hvac_rightsizing_factor (interventions_config self) * new_impl).

Definition _calculate_humidity_control_savings
    (self : MFAEnergySavingsTool) (interventions : InterventionSelection) : result Q :=
  if negb (py_in "humidity_control" interventions) then Ok 0 else
  d_old ← py_getitem interventions "humidity_control";
  let old_impl := py_get d_old "old" 0 / 100 in
  d_new ← py_getitem interventions "humidity_control";
  let new_impl := py_get d_new "new" 0 / 100 in
  Ok (old_building_hvac self * humidity_control_factor (interventions_config self) * old_impl +
      new_building_hvac self * humidity_control_factor (interventions_config self) * new_impl).

Definition _calculate_vfd_savings
    (self : MFAEnergySavingsTool) (interventions : InterventionSelection) : result Q :=
  if negb (py_in "vfd" interventions) then Ok 0 else
  d_old ← py_getitem interventions "vfd";
  let old_impl := py_get d_old "old" 0 / 100 in
  d_new ← py_getitem interventions "vfd";
  let new_impl := py_get d_new "new" 0 / 100 in
  Ok (old_building_fan self * vfd_factor (interventions_config self) * old_impl +
      new_building_fan self * vfd_factor (interventions_config self) * new_impl).

Definition _calculate_led_conversion_savings
    (self : MFAEnergySavingsTool) (interventions : InterventionSelection) : result Q :=
  if negb (py_in "led_conversion" interventions) then Ok 0 else
  d_old ← py_getitem interventions "led_conversion";
  let old_impl := py_get d_old "old" 0 / 100 in
  d_new ← py_getitem interventions "led_conversion";
  let new_impl := py_get d_new "new" 0 / 100 in
  let old_effective_impl := py_max 0 (old_impl - current_led_percentage (config self)) in
  let new_effective_impl := py_max 0 (new_impl - current_led_percentage (config self)) in
  Ok (old_building_lighting self * led_conversion_factor (interventions_config self)
        * old_effective_impl +
      new_building_lighting self * led_conversion_factor (interventions_config self)
        * new_effective_impl).

Definition _calculate_window_upgrade_savings
    (self : MFAEnergySavingsTool) (interventions : InterventionSelection) : result Q :=
  if negb (py_in "window_upgrades" interventions) then Ok 0 else
  d_old ← py_getitem interventions "window_upgrades";
  let old_impl := py_get d_old "old" 0 / 100 in
  d_new ← py_getitem interventions "window_upgrades";
  let new_impl := py_get d_new "new" 0 / 100 in
  Ok (old_building_hvac self * window_upgrade_factor (interventions_config self) * old_impl +
      new_building_hvac self * window_upgrade_factor (interventions_config self) * new_impl).

(** ** [calculate_savings] *)

Record SavingsResult : Type := {
  Individual_Savings : list (string * Q);
  Total_Savings : Q;
  New_Energy_Use : Q;
  New_EUI : Q;
  Percent_Savings : Q;
  Baseline_EUI : Q
}.

(** [sum(savings[measure] for measure in measures)], started at [acc]. *)
Fixpoint sum_savings (savings : list (string * Q)) (measures : list string) (acc : Q)
    : result Q :=
  match measures with
  | [] => Ok acc
  | measure :: rest =>
      v ← alist_getitem savings measure;
      sum_savings savings rest (acc + v)
  end.

Definition hvac_measures : list string :=
  ["hvac_rightsizing"; "humidity_control"; "vfd"; "window_upgrades"]%string.

Definition calculate_savings
    (self : MFAEnergySavingsTool) (interventions : InterventionSelection)
    : result SavingsResult :=
  s_hvac ← _calculate_hvac_rightsizing_savings self interventions;
  s_hum ← _calculate_humidity_control_savings self interventions;
  s_vfd ← _calculate_vfd_savings self interventions;
  s_led ← _calculate_led_conversion_savings self interventions;
  s_win ← _calculate_window_upgrade_savings self interventions;
  let savings := [("hvac_rightsizing", s_hvac); ("humidity_control", s_hum);
                  ("vfd", s_vfd); ("led_conversion", s_led);
                  ("window_upgrades", s_win)]%string in
  hvac_savings ← sum_savings savings hvac_measures 0;
  lighting_savings ← alist_getitem savings "led_conversion";
  let hvac_savings := py_min hvac_savings (0.95 * total_hvac self) in
  let total_savings := hvac_savings + lighting_savings in
  let new_energy_use := total_site_energy (config self) - total_savings in
  new_eui ← py_div new_energy_use (total_area (config self));
  fraction ← py_div total_savings (total_site_energy (config self));
  let percent_savings := fraction * 100 in
  Ok {| Individual_Savings := savings;
        Total_Savings := total_savings;
        New_Energy_Use := new_energy_use;
        New_EUI := new_eui;
        Percent_Savings := percent_savings;
        Baseline_EUI := eui (config self) |}.

(** ** [estimate_costs_and_payback] *)

(** The inner dictionaries of the two tables are literals with two fixed
    keys, read with constant subscripts: they are records. *)
Record ZoneCost : Type := { cost_old : Q; cost_new : Q }.
Record SourceSplit : Type := { elec : Q; gas : Q }.

Definition implementation_costs : list (string * ZoneCost) :=
  [("hvac_rightsizing", {| cost_old := 15.00; cost_new := 10.00 |});
   ("humidity_control", {| cost_old := 5.00; cost_new := 3.00 |});
   ("vfd", {| cost_old := 2.00; cost_new := 1.50 |});
   ("led_conversion", {| cost_old := 8.00; cost_new := 8.00 |});
   ("window_upgrades", {| cost_old := 25.00; cost_new := 10.00 |})]%string.

Definition elec_gas_split : list (string * SourceSplit) :=
  [("hvac_rightsizing", {| elec := 0.40; gas := 0.60 |});
   ("humidity_control", {| elec := 0.30; gas := 0.70 |});
   ("vfd", {| elec := 1.0; gas := 0.0 |});
   ("led_conversion", {| elec := 1.0; gas := 0.0 |});
   ("window_upgrades", {| elec := 0.25; gas := 0.75 |})]%string.

Definition alist_in {V : Type} (k : string) (l : list (string * V)) : bool :=
  match alist_get l k with
  | Some _ => true
  | None => false
  end.

(** The first loop: [(electricity_savings_kbtu, gas_savings_kbtu)] after the
    items [items], started at [acc]. *)
Fixpoint split_savings (items : list (string * Q)) (acc : Q * Q) : result (Q * Q) :=
  match items with
  | [] => Ok acc
  | (measure, savings) :: rest =>
      if alist_in measure elec_gas_split then
        sp_e ← alist_getitem elec_gas_split measure;
        sp_g ← alist_getitem elec_gas_split measure;
        split_savings rest (fst acc + savings * elec sp_e, snd acc + savings * gas sp_g)
      else split_savings rest acc
  end.

(** The second loop: [total_cost] after the rows [table], started at [acc]. *)
Fixpoint implementation_cost (self : MFAEnergySavingsTool)
    (interventions : InterventionSelection)
    (table : list (string * ZoneCost)) (acc : Q) : result Q :=
  match table with
  | [] => Ok acc
  | (measure, details) :: rest =>
      if py_in measure interventions then
        d_old ← py_getitem interventions measure;
        let old_impl := py_get d_old "old" 0 / 100 in
        d_new ← py_getitem interventions measure;
        let new_impl := py_get d_new "new" 0 / 100 in
        implementation_cost self interventions rest
          (acc + (old_building_area self * cost_old details * old_impl +
                  new_building_area self * cost_new details * new_impl))
      else implementation_cost self interventions rest acc
  end.

Record FinancialReport : Type := {
  Annual_Cost_Savings : Q;
  Electricity_Savings : Q;
  Natural_Gas_Savings : Q;
  Implementation_Cost_Estimate : Q;
  Simple_Payback : pyfloat;
  CO2_Reduction : Q;
  Electricity_CO2_Reduction : Q;
  Natural_Gas_CO2_Reduction : Q
}.

Definition estimate_costs_and_payback
    (self : MFAEnergySavingsTool) (interventions : InterventionSelection)
    (savings_results : SavingsResult) (cost_factors : CostFactors)
    : result FinancialReport :=
  kbtu ← split_savings (Individual_Savings savings_results) (0, 0);
  let electricity_savings_kbtu := fst kbtu in
  let gas_savings_kbtu := snd kbtu in
  electricity_savings_kwh ← py_div electricity_savings_kbtu (kbtu_to_kwh cost_factors);
  gas_savings_therm ← py_div gas_savings_kbtu (kbtu_to_therm cost_factors);
  let electricity_cost_savings := electricity_savings_kwh * elec_rate cost_factors in
  let gas_cost_savings := gas_savings_therm * gas_rate cost_factors in
  let annual_cost_savings := electricity_cost_savings + gas_cost_savings in
  let co2_reduction_elec := electricity_savings_kwh * co2_factor_elec cost_factors in
  let co2_reduction_gas := gas_savings_therm * co2_factor_gas cost_factors in
  let total_co2_reduction := co2_reduction_elec + co2_reduction_gas in
  total_cost ← implementation_cost self interventions implementation_costs 0;
  simple_payback ←
    (if py_gt annual_cost_savings 0
     then q ← py_div total_cost annual_cost_savings; Ok (Fin q)
     else Ok PosInf);
  Ok {| Annual_Cost_Savings := annual_cost_savings;
        Electricity_Savings := electricity_cost_savings;
        Natural_Gas_Savings := gas_cost_savings;
        Implementation_Cost_Estimate := total_cost;
        Simple_Payback := simple_payback;
        CO2_Reduction := total_co2_reduction;
        Electricity_CO2_Reduction := co2_reduction_elec;
        Natural_Gas_CO2_Reduction := co2_reduction_gas |}.

(** ** Configurations and selections used as concrete inputs *)

(** [BuildingConfig] with one field replaced, as the keyword arguments of the
    dataclass constructor do. *)
Definition with_total_area (a : Q) (c : BuildingConfig) : BuildingConfig :=
  {| total_area := a;
     exhibition_percent := exhibition_percent c;
     old_building_percent := old_building_percent c;
     new_building_percent := new_building_percent c;
     total_site_energy := total_site_energy c;
     eui := eui c;
     hvac_percent := hvac_percent c;
     lighting_percent := lighting_percent c;
     other_percent := other_percent c;
     current_led_percentage := current_led_percentage c;
     new_building_efficiency_factor := new_building_efficiency_factor c;
     fan_percent_of_hvac := fan_percent_of_hvac c |}.

Definition with_total_site_energy (e : Q) (c : BuildingConfig) : BuildingConfig :=
  {| total_area := total_area c;
     exhibition_percent := exhibition_percent c;
     old_building_percent := old_building_percent c;
     new_building_percent := new_building_percent c;
     total_site_energy := e;
     eui := eui c;
     hvac_percent := hvac_percent c;
     lighting_percent := lighting_percent c;
     other_percent := other_percent c;
     current_led_percentage := current_led_percentage c;
     new_building_efficiency_factor := new_building_efficiency_factor c;
     fan_percent_of_hvac := fan_percent_of_hvac c |}.

Definition with_exhibition_percent (p : Q) (c : BuildingConfig) : BuildingConfig :=
  {| total_area := total_area c;
     exhibition_percent := p;
     old_building_percent := old_building_percent c;
     new_building_percent := new_building_percent c;
     total_site_energy := total_site_energy c;
     eui := eui c;
     hvac_percent := hvac_percent c;
     lighting_percent := lighting_percent c;
     other_percent := other_percent c;
     current_led_percentage := current_led_percentage c;
     new_building_efficiency_factor := new_building_efficiency_factor c;
     fan_percent_of_hvac := fan_percent_of_hvac c |}.

(** [{'old': o, 'new': n}] *)
Definition zones (o n : Q) : gmap string Q :=
  <["old" := o]> (<["new" := n]> ∅).

(** The selection the dashboard starts with. *)
Definition dashboard_selection : InterventionSelection :=
  <["hvac_rightsizing" := zones 75 25]>
  (<["humidity_control" := zones 90 50]>
  (<["vfd" := zones 80 40]>
  (<["led_conversion" := zones 95 60]>
  (<["window_upgrades" := zones 70 0]> ∅)))).

(** * Specification-level definitions

    Closed forms of what the methods compute, the orders and predicates the
    statements use, and further concrete inputs.  None of them is used by the
    embedding above. *)

(** [effective_old_area + effective_new_area] in terms of the
    configuration. *)
Definition total_effective_area (cfg : BuildingConfig) : Q :=
  total_area cfg * exhibition_percent cfg * old_building_percent cfg +
  total_area cfg * exhibition_percent cfg * new_building_percent cfg
    * new_building_efficiency_factor cfg.

(** The value a [_calculate_*_savings] method returns: [0] for an absent
    measure and the two-zone formula otherwise; [t_old] and [t_new] are the
    measure's target energies, [f] its factor, and [eff] is what the measure
    does to an adoption fraction before using it (nothing, except for LED
    conversion). *)
Definition measure_value (t_old t_new f : Q) (eff : Q -> Q)
    (interventions : InterventionSelection) (measure : string) : Q :=
  match interventions !! measure with
  | None => 0
  | Some d =>
      t_old * f * eff (py_get d "old" 0 / 100) +
      t_new * f * eff (py_get d "new" 0 / 100)
  end.

Definition hvac_rightsizing_value (self : MFAEnergySavingsTool)
    (i : InterventionSelection) : Q :=
  measure_value (old_building_hvac self) (new_building_hvac self)
    (hvac_rightsizing_factor (interventions_config self)) (fun a => a)
    i "hvac_rightsizing".

Definition humidity_control_value (self : MFAEnergySavingsTool)
    (i : InterventionSelection) : Q :=
  measure_value (old_building_hvac self) (new_building_hvac self)
    (humidity_control_factor (interventions_config self)) (fun a => a)
    i "humidity_control".

Definition vfd_value (self : MFAEnergySavingsTool) (i : InterventionSelection) : Q :=
  measure_value (old_building_fan self) (new_building_fan self)
    (vfd_factor (interventions_config self)) (fun a => a)
    i "vfd".

Definition led_conversion_value (self : MFAEnergySavingsTool)
    (i : InterventionSelection) : Q :=
  measure_value (old_building_lighting self) (new_building_lighting self)
    (led_conversion_factor (interventions_config self))
    (fun a => py_max 0 (a - current_led_percentage (config self)))
    i "led_conversion".

Definition window_upgrade_value (self : MFAEnergySavingsTool)
    (i : InterventionSelection) : Q :=
  measure_value (old_building_hvac self) (new_building_hvac self)
    (window_upgrade_factor (interventions_config self)) (fun a => a)
    i "window_upgrades".

(** Case analysis on the presence of the measure. *)
Ltac measure_closed_form :=
  intros; unfold measure_value, py_in, py_getitem;
  match goal with
  | |- context [ ?i !! ?k ] => destruct (i !! k); reflexivity
  end.

(** The dictionary [savings] of [calculate_savings]. *)
Definition individual_values (self : MFAEnergySavingsTool) (i : InterventionSelection)
    : list (string * Q) :=
  [("hvac_rightsizing", hvac_rightsizing_value self i);
   ("humidity_control", humidity_control_value self i);
   ("vfd", vfd_value self i);
   ("led_conversion", led_conversion_value self i);
   ("window_upgrades", window_upgrade_value self i)]%string.

(** The sum of the four HVAC-adjacent savings as Python's [sum] builds it. *)
Definition hvac_adjacent_sum (self : MFAEnergySavingsTool) (i : InterventionSelection) : Q :=
  0 + hvac_rightsizing_value self i + humidity_control_value self i
    + vfd_value self i + window_upgrade_value self i.

(** [total_savings]: the capped HVAC-adjacent sum plus the LED savings. *)
Definition total_savings_value (self : MFAEnergySavingsTool) (i : InterventionSelection) : Q :=
  py_min (hvac_adjacent_sum self i) (0.95 * total_hvac self) + led_conversion_value self i.

(** The report [calculate_savings] returns when its two divisions succeed. *)
Definition savings_report (self : MFAEnergySavingsTool) (i : InterventionSelection)
    : SavingsResult :=
  {| Individual_Savings := individual_values self i;
     Total_Savings := total_savings_value self i;
     New_Energy_Use := total_site_energy (config self) - total_savings_value self i;
     New_EUI :=
       (total_site_energy (config self) - total_savings_value self i)
       / total_area (config self);
     Percent_Savings :=
       total_savings_value self i / total_site_energy (config self) * 100;
     Baseline_EUI := eui (config self) |}.

(** [(electricity_savings_kbtu, gas_savings_kbtu)] after the first loop. *)
Fixpoint split_value (items : list (string * Q)) (acc : Q * Q) : Q * Q :=
  match items with
  | [] => acc
  | (measure, savings) :: rest =>
      match alist_get elec_gas_split measure with
      | Some sp =>
          split_value rest (fst acc + savings * elec sp, snd acc + savings * gas sp)
      | None => split_value rest acc
      end
  end.

(** [total_cost] after the second loop. *)
Fixpoint cost_value (self : MFAEnergySavingsTool) (interventions : InterventionSelection)
    (table : list (string * ZoneCost)) (acc : Q) : Q :=
  match table with
  | [] => acc
  | (measure, details) :: rest =>
      match interventions !! measure with
      | Some d =>
          cost_value self interventions rest
            (acc + (old_building_area self * cost_old details * (py_get d "old" 0 / 100) +
                    new_building_area self * cost_new details * (py_get d "new" 0 / 100)))
      | None => cost_value self interventions rest acc
      end
  end.


(** The payback line on its own: [total_cost / annual if annual > 0 else inf]. *)
Definition payback_value (total_cost annual_cost_savings : Q) : pyfloat :=
  if py_gt annual_cost_savings 0 then Fin (total_cost / annual_cost_savings) else PosInf.

(** The report [estimate_costs_and_payback] returns when its two unit
    conversions succeed. *)
Definition financial_report (self : MFAEnergySavingsTool) (i : InterventionSelection)
    (sr : SavingsResult) (cf : CostFactors) : FinancialReport :=
  let kbtu := split_value (Individual_Savings sr) (0, 0) in
  let kwh := fst kbtu / kbtu_to_kwh cf in
  let therm := snd kbtu / kbtu_to_therm cf in
  let total_cost := cost_value self i implementation_costs 0 in
  {| Annual_Cost_Savings := kwh * elec_rate cf + therm * gas_rate cf;
     Electricity_Savings := kwh * elec_rate cf;
     Natural_Gas_Savings := therm * gas_rate cf;
     Implementation_Cost_Estimate := total_cost;
     Simple_Payback :=
       payback_value total_cost (kwh * elec_rate cf + therm * gas_rate cf);
     CO2_Reduction := kwh * co2_factor_elec cf + therm * co2_factor_gas cf;
     Electricity_CO2_Reduction := kwh * co2_factor_elec cf;
     Natural_Gas_CO2_Reduction := therm * co2_factor_gas cf |}.

(** The engine [MFAEnergySavingsTool(cfg, icfg)] when construction returns
    (and nothing when it raises). *)
Definition constructed (cfg : BuildingConfig) (icfg : InterventionConfig) :=
  match MFAEnergySavingsTool_init cfg icfg as r
        return (match r with Ok _ => MFAEnergySavingsTool | Raise _ => unit end) with
  | Ok self => self
  | Raise _ => tt
  end.

(** [MFAEnergySavingsTool(BuildingConfig(), InterventionConfig())] *)
Definition default_tool : MFAEnergySavingsTool :=
  constructed default_BuildingConfig default_InterventionConfig.

(** The same with [total_site_energy=-100]. *)
Definition negative_energy_tool : MFAEnergySavingsTool :=
  constructed (with_total_site_energy (-100) default_BuildingConfig)
              default_InterventionConfig.

(** The same with [total_site_energy=0]. *)
Definition zero_energy_tool : MFAEnergySavingsTool :=
  constructed (with_total_site_energy 0 default_BuildingConfig)
              default_InterventionConfig.

(** Two figures agree up to [tol]. *)
Definition approx (tol x y : Q) : Prop := Qabs (x - y) <= tol.

(** [{'led_conversion': {'old': o, 'new': n}}] *)
Definition led_selection (o n : Q) : InterventionSelection :=
  <["led_conversion" := zones o n]> ∅.

(** An effectiveness table under which the cap binds. *)
Definition aggressive_InterventionConfig : InterventionConfig :=
  {| hvac_rightsizing_factor := 1.0;
     humidity_control_factor := 0.10;
     vfd_factor := 0.40;
     led_conversion_factor := 0.70;
     window_upgrade_factor := 0.10 |}.

(** The default building with that table. *)
Definition aggressive_tool : MFAEnergySavingsTool :=
  constructed default_BuildingConfig aggressive_InterventionConfig.

(** HVAC rightsizing and humidity control everywhere. *)
Definition full_hvac_selection : InterventionSelection :=
  <["hvac_rightsizing" := zones 100 100]> (<["humidity_control" := zones 100 100]> ∅).

(** The target energies of the five measures are nonnegative. *)
Definition nonneg_energies (self : MFAEnergySavingsTool) : Prop :=
  0 <= old_building_hvac self /\ 0 <= new_building_hvac self
  /\ 0 <= old_building_fan self /\ 0 <= new_building_fan self
  /\ 0 <= old_building_lighting self /\ 0 <= new_building_lighting self.

(** The five effectiveness factors are nonnegative. *)
Definition nonneg_factors (icfg : InterventionConfig) : Prop :=
  0 <= hvac_rightsizing_factor icfg /\ 0 <= humidity_control_factor icfg
  /\ 0 <= vfd_factor icfg /\ 0 <= led_conversion_factor icfg
  /\ 0 <= window_upgrade_factor icfg.

(** Pointwise order on the adoption percentages of an entry (a missing zone
    key counts as 0) and on selections with the same measures. *)
Definition dict_le (d d' : gmap string Q) : Prop :=
  py_get d "old" 0 <= py_get d' "old" 0 /\ py_get d "new" 0 <= py_get d' "new" 0.

Definition selection_le (i i' : InterventionSelection) : Prop :=
  forall m : string,
    match i !! m, i' !! m with
    | Some d, Some d' => dict_le d d'
    | None, None => True
    | _, _ => False
    end.

(** [r] returns a value equal to [v]. *)
Definition saves (r : result Q) (v : Q) : Prop := exists s, r = Ok s /\ s == v.

(** [{'new': n}]: a measure entry whose ['old'] key is missing. *)
Definition new_zone_only (n : Q) : gmap string Q := <["new" := n]> ∅.

(** [{'hvac_rightsizing': {'new': 25}}] *)
Definition hvac_new_only_selection : InterventionSelection :=
  <["hvac_rightsizing" := new_zone_only 25]> ∅.

(** * The dashboard's use of the engine

    [create_intervention_controls] builds the selection from the state of
    the widgets: [st.checkbox] and [st.slider] return that state, which is
    the input here ([Widgets], one field per widget key); the texts the
    function writes to the page are output only. *)

Record Widgets : Type := {
  use_hvac : bool;
  hvac_old : Z;
  hvac_new : Z;
  use_humidity : bool;
  humidity_old : Z;
  humidity_new : Z;
  use_vfd : bool;
  vfd_old : Z;
  vfd_new : Z;
  use_led : bool;
  led_old : Z;
  led_new : Z;
  use_windows : bool;
  windows_old : Z;
  windows_new : Z
}.

(** The values the widgets are created with. *)
Definition initial_Widgets : Widgets := {|
  use_hvac := true; hvac_old := 75; hvac_new := 25;
  use_humidity := true; humidity_old := 90; humidity_new := 50;
  use_vfd := true; vfd_old := 80; vfd_new := 40;
  use_led := true; led_old := 95; led_new := 60;
  use_windows := true; windows_old := 70; windows_new := 0
|}.

Definition create_intervention_controls
    (mfa_tool : MFAEnergySavingsTool) (w : Widgets) : InterventionSelection :=
  let interventions : InterventionSelection := ∅ in
  let interventions :=
    if use_hvac w
    then <["hvac_rightsizing" := zones (inject_Z (hvac_old w)) (inject_Z (hvac_new w))]>
           interventions
    else interventions in
  let interventions :=
    if use_humidity w
    then <["humidity_control" :=
             zones (inject_Z (humidity_old w)) (inject_Z (humidity_new w))]> interventions
    else interventions in
  let interventions :=
    if use_vfd w
    then <["vfd" := zones (inject_Z (vfd_old w)) (inject_Z (vfd_new w))]> interventions
    else interventions in
  let interventions :=
    if use_led w
    then <["led_conversion" := zones (inject_Z (led_old w)) (inject_Z (led_new w))]>
           interventions
    else interventions in
  let interventions :=
    if use_windows w
    then <["window_upgrades" :=
             zones (inject_Z (windows_old w)) (inject_Z (windows_new w))]> interventions
    else interventions in
  interventions.

(** [if interventions:] on a dictionary: it is not empty. *)
Definition py_truthy {V : Type} (d : gmap string V) : bool :=
  negb (Nat.eqb (size d) 0).

(** The engine calls of [create_streamlit_app] and the values they hand to
    the rendering code ([st.metric], [display_results]), which is not
    modelled: the baseline report, and the savings and financial reports when
    the selection is not empty. *)
Definition create_streamlit_app (w : Widgets)
    : result (BaselineReport * option (SavingsResult * FinancialReport)) :=
  let building_config := default_BuildingConfig in
  let interventions_config := default_InterventionConfig in
  let cost_factors := default_CostFactors in
  mfa_tool ← MFAEnergySavingsTool_init building_config interventions_config;
  baseline_data ← calculate_baseline mfa_tool;
  let interventions := create_intervention_controls mfa_tool w in
  if py_truthy interventions then
    savings_results ← calculate_savings mfa_tool interventions;
    financial_results ←
      estimate_costs_and_payback mfa_tool interventions savings_results cost_factors;
    Ok (baseline_data, Some (savings_results, financial_results))
  else Ok (baseline_data, None).

(** * Further specification-level definitions *)

(** Every adoption percentage of the selection lies in [0, 100] (a missing
    zone key counts as 0). *)
Definition adoption_in_range (i : InterventionSelection) : Prop :=
  forall (m : string) (d : gmap string Q),
    i !! m = Some d ->
    (0 <= py_get d "old" 0 /\ py_get d "old" 0 <= 100)
    /\ (0 <= py_get d "new" 0 /\ py_get d "new" 0 <= 100).

(** The sliders are created with the range 0..100. *)
Definition sliders_in_range (w : Widgets) : Prop :=
  (0 <= hvac_old w <= 100 /\ 0 <= hvac_new w <= 100
   /\ 0 <= humidity_old w <= 100 /\ 0 <= humidity_new w <= 100
   /\ 0 <= vfd_old w <= 100 /\ 0 <= vfd_new w <= 100
   /\ 0 <= led_old w <= 100 /\ 0 <= led_new w <= 100
   /\ 0 <= windows_old w <= 100 /\ 0 <= windows_new w <= 100)%Z.

(** The five measure names. *)
Definition measure_keys : list string :=
  ["hvac_rightsizing"; "humidity_control"; "vfd"; "led_conversion";
   "window_upgrades"]%string.

(** Two selections with the same entries under the five measure names. *)
Definition same_measures (i i' : InterventionSelection) : Prop :=
  forall m : string, In m measure_keys -> i !! m = i' !! m.

(** The configuration fields are nonnegative and the percentages at most 1. *)
Definition plausible_config (cfg : BuildingConfig) : Prop :=
  0 <= total_area cfg
  /\ (0 <= exhibition_percent cfg /\ exhibition_percent cfg <= 1)
  /\ 0 <= old_building_percent cfg
  /\ 0 <= new_building_percent cfg
  /\ 0 <= new_building_efficiency_factor cfg
  /\ 0 <= total_site_energy cfg
  /\ 0 <= hvac_percent cfg
  /\ 0 <= lighting_percent cfg
  /\ hvac_percent cfg + lighting_percent cfg <= 1
  /\ (0 <= fan_percent_of_hvac cfg /\ fan_percent_of_hvac cfg <= 1)
  /\ 0 <= current_led_percentage cfg.

(** [SavingsResult] with its individual savings replaced. *)
Definition with_individual_savings (items : list (string * Q)) (sr : SavingsResult)
    : SavingsResult :=
  {| Individual_Savings := items;
     Total_Savings := Total_Savings sr;
     New_Energy_Use := New_Energy_Use sr;
     New_EUI := New_EUI sr;
     Percent_Savings := Percent_Savings sr;
     Baseline_EUI := Baseline_EUI sr |}.

(** The entries of a savings dictionary whose measure has an energy-source
    split. *)
Definition known_savings (items : list (string * Q)) : list (string * Q) :=
  List.filter (fun kv => alist_in (fst kv) elec_gas_split) items.

(** The plain sum of the values of a savings dictionary. *)
Definition plain_sum (items : list (string * Q)) : Q :=
  fold_right (fun kv acc => snd kv + acc) 0 items.

(** The highest implementation cost a cost table allows: every measure of
    the table at 100% in both zones. *)
Definition table_cost_cap (self : MFAEnergySavingsTool)
    (table : list (string * ZoneCost)) : Q :=
  fold_right
    (fun row acc =>
       old_building_area self * cost_old (snd row)
       + new_building_area self * cost_new (snd row) + acc)
    0 table.

(** Every entry of the selection has both zone keys. *)
Definition both_zones (i : InterventionSelection) : Prop :=
  forall (m : string) (d : gmap string Q),
    i !! m = Some d -> is_Some (d !! "old") /\ is_Some (d !! "new").

(** On a constructed engine: replace the engine by its fields ([fields], the
    record built by [__init__]) and record that the total effective area is
    not zero ([inv]). *)
Ltac engine_fields inv fields :=
  let Hz := fresh "Hz" in
  pose proof inv as (Hz & _ & _ & _);
  unfold total_effective_area in Hz;
  rewrite fields in *;
  cbn [config interventions_config exhibition_area old_building_area new_building_area
       exhibition_energy old_building_energy new_building_energy
       old_building_hvac old_building_lighting old_building_other old_building_fan
       new_building_hvac new_building_lighting new_building_other new_building_fan
       total_hvac total_lighting total_other total_fan
       calculate_end_use_breakdown
       eu_old_building_hvac eu_old_building_lighting eu_old_building_other
       eu_old_building_fan eu_new_building_hvac eu_new_building_lighting
       eu_new_building_other eu_new_building_fan eu_total_hvac eu_total_lighting
       eu_total_other eu_total_fan] in *.

(** * The savings formulas on IEEE binary64 numbers

    Python's floats are binary64 numbers; the rationals above abstract their
    rounding away.  Where a statement is an exact identity between two
    different ways of computing a quantity, rounding matters.  The module
    below embeds the construction of the engine, the five per-measure
    savings, [calculate_savings] and the first loop of
    [estimate_costs_and_payback] once more, with the same operations in the
    same order, on Rocq's primitive binary64 floats, so that such an identity
    can be evaluated as the program evaluates it.  The ints of the
    configuration (630800, 176424575) and of the sliders convert to floats
    exactly. *)

Module Float64.

Import PrimFloat.
Set Warnings "-inexact-float".
Local Open Scope float_scope.

(** [x / y]: a zero divisor (0.0 or -0.0) raises. *)
Definition py_div (x y : float) : result float :=
  if (y =? 0)%float then Raise ZeroDivisionError else Ok (x / y).

(** [min(a, b)] and [max(a, b)]. *)
Definition py_min (a b : float) : float := if (b <? a)%float then b else a.
Definition py_max (a b : float) : float := if (a <? b)%float then b else a.

Record BuildingConfig : Type := {
  total_area : float;
  exhibition_percent : float;
  old_building_percent : float;
  new_building_percent : float;
  total_site_energy : float;
  eui : float;
  hvac_percent : float;
  lighting_percent : float;
  other_percent : float;
  current_led_percentage : float;
  new_building_efficiency_factor : float;
  fan_percent_of_hvac : float
}.

Definition default_BuildingConfig : BuildingConfig := {|
  total_area := 630800;
  exhibition_percent := 0.49;
  old_building_percent := 0.78;
  new_building_percent := 0.22;
  total_site_energy := 176424575;
  eui := 279.7;
  hvac_percent := 0.85;
  lighting_percent := 0.05;
  other_percent := 0.10;
  current_led_percentage := 0.70;
  new_building_efficiency_factor := 0.85;
  fan_percent_of_hvac := 0.25
|}.

Record InterventionConfig : Type := {
  hvac_rightsizing_factor : float;
  humidity_control_factor : float;
  vfd_factor : float;
  led_conversion_factor : float;
  window_upgrade_factor : float
}.

Definition default_InterventionConfig : InterventionConfig := {|
  hvac_rightsizing_factor := 0.30;
  humidity_control_factor := 0.10;
  vfd_factor := 0.40;
  led_conversion_factor := 0.70;
  window_upgrade_factor := 0.10
|}.

Record MFAEnergySavingsTool : Type := {
  config : BuildingConfig;
  interventions_config : InterventionConfig;
  exhibition_area : float;
  old_building_area : float;
  new_building_area : float;
  exhibition_energy : float;
  old_building_energy : float;
  new_building_energy : float;
  old_building_hvac : float;
  old_building_lighting : float;
  old_building_other : float;
  old_building_fan : float;
  new_building_hvac : float;
  new_building_lighting : float;
  new_building_other : float;
  new_building_fan : float;
  total_hvac : float;
  total_lighting : float;
  total_other : float;
  total_fan : float
}.

(** [__init__] with [calculate_energy_allocation] and
    [calculate_end_use_breakdown] in line. *)
Definition MFAEnergySavingsTool_init
    (cfg : BuildingConfig) (icfg : InterventionConfig) : result MFAEnergySavingsTool :=
  let exhibition_area := total_area cfg * exhibition_percent cfg in
  let old_building_area := exhibition_area * old_building_percent cfg in
  let new_building_area := exhibition_area * new_building_percent cfg in
  let exhibition_energy := total_site_energy cfg * exhibition_percent cfg in
  let effective_old_area := old_building_area in
  let effective_new_area := new_building_area * new_building_efficiency_factor cfg in
  let total_effective_area := effective_old_area + effective_new_area in
  old_share ← py_div effective_old_area total_effective_area;
  let old_building_energy := exhibition_energy * old_share in
  new_share ← py_div effective_new_area total_effective_area;
  let new_building_energy := exhibition_energy * new_share in
  let old_building_hvac := old_building_energy * hvac_percent cfg in
  let old_building_lighting := old_building_energy * lighting_percent cfg in
  let old_building_other := old_building_energy * other_percent cfg in
  let old_building_fan := old_building_hvac * fan_percent_of_hvac cfg in
  let new_building_hvac := new_building_energy * hvac_percent cfg in
  let new_building_lighting := new_building_energy * lighting_percent cfg in
  let new_building_other := new_building_energy * other_percent cfg in
  let new_building_fan := new_building_hvac * fan_percent_of_hvac cfg in
  Ok {| config := cfg;
        interventions_config := icfg;
        exhibition_area := exhibition_area;
        old_building_area := old_building_area;
        new_building_area := new_building_area;
        exhibition_energy := exhibition_energy;
        old_building_energy := old_building_energy;
        new_building_energy := new_building_energy;
        old_building_hvac := old_building_hvac;
        old_building_lighting := old_building_lighting;
        old_building_other := old_building_other;
        old_building_fan := old_building_fan;
        new_building_hvac := new_building_hvac;
        new_building_lighting := new_building_lighting;
        new_building_other := new_building_other;
        new_building_fan := new_building_fan;
        total_hvac := old_building_hvac + new_building_hvac;
        total_lighting := old_building_lighting + new_building_lighting;
        total_other := old_building_other + new_building_other;
        total_fan := old_building_fan + new_building_fan |}.

Definition _calculate_hvac_rightsizing_savings
    (self : MFAEnergySavingsTool) (interventions : gmap string (gmap string float))
    : result float :=
  if negb (py_in "hvac_rightsizing" interventions) then Ok 0 else
  d_old ← py_getitem interventions "hvac_rightsizing";
  let old_impl := py_get d_old "old" 0 / 100 in
  d_new ← py_getitem interventions "hvac_rightsizing";
  let new_impl := py_get d_new "new" 0 / 100 in
  Ok (old_building_hvac self * hvac_rightsizing_factor (interventions_config self) * old_impl +
      new_building_hvac self * hvac_rightsizing_factor (interventions_config self) * new_impl).

Definition _calculate_humidity_control_savings
    (self : MFAEnergySavingsTool) (interventions : gmap string (gmap string float))
    : result float :=
  if negb (py_in "humidity_control" interventions) then Ok 0 else
  d_old ← py_getitem interventions "humidity_control";
  let old_impl := py_get d_old "old" 0 / 100 in
  d_new ← py_getitem interventions "humidity_control";
  let new_impl := py_get d_new "new" 0 / 100 in
  Ok (old_building_hvac self * humidity_control_factor (interventions_config self) * old_impl +
      new_building_hvac self * humidity_control_factor (interventions_config self) * new_impl).

Definition _calculate_vfd_savings
    (self : MFAEnergySavingsTool) (interventions : gmap string (gmap string float))
    : result float :=
  if negb (py_in "vfd" interventions) then Ok 0 else
  d_old ← py_getitem interventions "vfd";
  let old_impl := py_get d_old "old" 0 / 100 in
  d_new ← py_getitem interventions "vfd";
  let new_impl := py_get d_new "new" 0 / 100 in
  Ok (old_building_fan self * vfd_factor (interventions_config self) * old_impl +
      new_building_fan self * vfd_factor (interventions_config self) * new_impl).

Definition _calculate_led_conversion_savings
    (self : MFAEnergySavingsTool) (interventions : gmap string (gmap string float))
    : result float :=
  if negb (py_in "led_conversion" interventions) then Ok 0 else
  d_old ← py_getitem interventions "led_conversion";
  let old_impl := py_get d_old "old" 0 / 100 in
  d_new ← py_getitem interventions "led_conversion";
  let new_impl := py_get d_new "new" 0 / 100 in
  let old_effective_impl := py_max 0 (old_impl - current_led_percentage (config self)) in
  let new_effective_impl := py_max 0 (new_impl - current_led_percentage (config self)) in
  Ok (old_building_lighting self * led_conversion_factor (interventions_config self)
        * old_effective_impl +
      new_building_lighting self * led_conversion_factor (interventions_config self)
        * new_effective_impl).

Definition _calculate_window_upgrade_savings
    (self : MFAEnergySavingsTool) (interventions : gmap string (gmap string float))
    : result float :=
  if negb (py_in "window_upgrades" interventions) then Ok 0 else
  d_old ← py_getitem interventions "window_upgrades";
  let old_impl := py_get d_old "old" 0 / 100 in
  d_new ← py_getitem interventions "window_upgrades";
  let new_impl := py_get d_new "new" 0 / 100 in
  Ok (old_building_hvac self * window_upgrade_factor (interventions_config self) * old_impl +
      new_building_hvac self * window_upgrade_factor (interventions_config self) * new_impl).

Record SavingsResult : Type := {
  Individual_Savings : list (string * float);
  Total_Savings : float;
  New_Energy_Use : float;
  New_EUI : float;
  Percent_Savings : float;
  Baseline_EUI : float
}.

Fixpoint sum_savings (savings : list (string * float)) (measures : list string)
    (acc : float) : result float :=
  match measures with
  | [] => Ok acc
  | measure :: rest =>
      v ← alist_getitem savings measure;
      sum_savings savings rest (acc + v)
  end.

Definition calculate_savings
    (self : MFAEnergySavingsTool) (interventions : gmap string (gmap string float))
    : result SavingsResult :=
  s_hvac ← _calculate_hvac_rightsizing_savings self interventions;
  s_hum ← _calculate_humidity_control_savings self interventions;
  s_vfd ← _calculate_vfd_savings self interventions;
  s_led ← _calculate_led_conversion_savings self interventions;
  s_win ← _calculate_window_upgrade_savings self interventions;
  let savings := [("hvac_rightsizing", s_hvac); ("humidity_control", s_hum);
                  ("vfd", s_vfd); ("led_conversion", s_led);
                  ("window_upgrades", s_win)]%string in
  hvac_savings ← sum_savings savings hvac_measures 0;
  lighting_savings ← alist_getitem savings "led_conversion";
  let hvac_savings := py_min hvac_savings (0.95 * total_hvac self) in
  let total_savings := hvac_savings + lighting_savings in
  let new_energy_use := total_site_energy (config self) - total_savings in
  new_eui ← py_div new_energy_use (total_area (config self));
  fraction ← py_div total_savings (total_site_energy (config self));
  let percent_savings := fraction * 100 in
  Ok {| Individual_Savings := savings;
        Total_Savings := total_savings;
        New_Energy_Use := new_energy_use;
        New_EUI := new_eui;
        Percent_Savings := percent_savings;
        Baseline_EUI := eui (config self) |}.

Record SourceSplit : Type := { elec : float; gas : float }.

Definition elec_gas_split : list (string * SourceSplit) :=
  [("hvac_rightsizing", {| elec := 0.40; gas := 0.60 |});
   ("humidity_control", {| elec := 0.30; gas := 0.70 |});
   ("vfd", {| elec := 1.0; gas := 0.0 |});
   ("led_conversion", {| elec := 1.0; gas := 0.0 |});
   ("window_upgrades", {| elec := 0.25; gas := 0.75 |})]%string.

(** The first loop of [estimate_costs_and_payback]. *)
Fixpoint split_savings (items : list (string * float)) (acc : float * float)
    : result (float * float) :=
  match items with
  | [] => Ok acc
  | (measure, savings) :: rest =>
      if alist_in measure elec_gas_split then
        sp_e ← alist_getitem elec_gas_split measure;
        sp_g ← alist_getitem elec_gas_split measure;
        split_savings rest (fst acc + savings * elec sp_e, snd acc + savings * gas sp_g)
      else split_savings rest acc
  end.

(** [sum(savings.values())]: the plain sum of the individual savings. *)
Definition plain_sum (items : list (string * float)) : float :=
  fold_left (fun acc kv => acc + snd kv) items 0.

(** [{'hvac_rightsizing': {'old': 0, 'new': 45}}] *)
Definition hvac_new_45_selection : gmap string (gmap string float) :=
  <["hvac_rightsizing" := <["old" := 0]> (<["new" := 45]> ∅)]> ∅.

(** The accumulators before the first loop, [x + y], and [x == y]. *)
Definition no_kbtu : float * float := (0, 0).
Definition py_add (x y : float) : float := x + y.
Definition py_eq (x y : float) : bool := (x =? y)%float.

(** The two figures the selection above gives: the plain sum of the
    individual savings, and electricity plus gas kBtu. *)
Definition sum_of_savings_at_45 : float := 1918328.5334870087.
Definition electricity_plus_gas_at_45 : float := 1918328.533487009.

End Float64.

(** * Properties *)

(** ** Arithmetic of the Python primitives *)

Lemma py_div_ok (x y : Q) : ~ y == 0 -> py_div x y = Ok (x / y).
Proof.
  intros Hy. unfold py_div.
  destruct (Qeq_bool y 0) eqn:E; [|reflexivity].
  apply Qeq_bool_iff in E. contradiction.
Qed.

Lemma py_div_zero (x y : Q) : y == 0 -> py_div x y = Raise ZeroDivisionError.
Proof.
  intros Hy. unfold py_div. apply Qeq_bool_iff in Hy. rewrite Hy. reflexivity.
Qed.

Lemma py_div_cases (x y : Q) :
  (y == 0 /\ py_div x y = Raise ZeroDivisionError) \/
  (~ y == 0 /\ py_div x y = Ok (x / y)).
Proof.
  destruct (Qeq_dec y 0) as [H|H].
  - left. split; [exact H | apply py_div_zero, H].
  - right. split; [exact H | apply py_div_ok, H].
Qed.

(** The adoption fraction [p / 100.0]. *)
Lemma div_100 (x : Q) : x / 100 == x * 0.01.
Proof. field. Qed.

Lemma py_gt_true (x y : Q) : py_gt x y = true <-> y < x.
Proof.
  unfold py_gt. rewrite negb_true_iff.
  split.
  - intros H. apply Qnot_le_lt. intros Hle.
    apply Qle_bool_iff in Hle. congruence.
  - intros H. destruct (Qle_bool x y) eqn:E; [|reflexivity].
    apply Qle_bool_iff in E. lra.
Qed.

Lemma py_gt_false (x y : Q) : py_gt x y = false <-> x <= y.
Proof.
  unfold py_gt. rewrite negb_false_iff. apply Qle_bool_iff.
Qed.

Lemma py_min_le_r (a b : Q) : py_min a b <= b.
Proof.
  unfold py_min. destruct (py_gt a b) eqn:E.
  - lra.
  - apply py_gt_false in E. exact E.
Qed.

Lemma py_min_le_l (a b : Q) : py_min a b <= a.
Proof.
  unfold py_min. destruct (py_gt a b) eqn:E.
  - apply py_gt_true in E. lra.
  - lra.
Qed.

Lemma py_min_Qmin (a b : Q) : py_min a b == Qmin a b.
Proof.
  unfold py_min. destruct (py_gt a b) eqn:E.
  - apply py_gt_true in E. rewrite Q.min_r; lra.
  - apply py_gt_false in E. rewrite Q.min_l; lra.
Qed.

Lemma py_min_mono (a a' b : Q) : a <= a' -> py_min a b <= py_min a' b.
Proof.
  intros H. unfold py_min.
  destruct (py_gt a b) eqn:E; destruct (py_gt a' b) eqn:E';
    rewrite ?py_gt_true, ?py_gt_false in *; lra.
Qed.

Lemma py_max_Qmax (a b : Q) : py_max a b == Qmax a b.
Proof.
  unfold py_max. destruct (py_gt b a) eqn:E.
  - apply py_gt_true in E. rewrite Q.max_r; lra.
  - apply py_gt_false in E. rewrite Q.max_l; lra.
Qed.

Lemma py_max_0_nonneg (x : Q) : 0 <= py_max 0 x.
Proof.
  unfold py_max. destruct (py_gt x 0) eqn:E.
  - apply py_gt_true in E. lra.
  - lra.
Qed.

Lemma py_max_0_nonpos (x : Q) : x <= 0 -> py_max 0 x = 0.
Proof.
  intros H. unfold py_max. destruct (py_gt x 0) eqn:E; [|reflexivity].
  apply py_gt_true in E. lra.
Qed.

Lemma py_max_0_mono (x y : Q) : x <= y -> py_max 0 x <= py_max 0 y.
Proof.
  intros H. unfold py_max.
  destruct (py_gt x 0) eqn:E; destruct (py_gt y 0) eqn:E';
    rewrite ?py_gt_true, ?py_gt_false in *; lra.
Qed.

(** ** Engine construction *)

(** Construction raises exactly when the total effective area is zero. *)
Lemma init_raises_iff (cfg : BuildingConfig) (icfg : InterventionConfig) :
  MFAEnergySavingsTool_init cfg icfg = Raise ZeroDivisionError
  <-> total_effective_area cfg == 0.
Proof.
  unfold MFAEnergySavingsTool_init, calculate_energy_allocation, total_effective_area.
  set (t := _ + _).
  destruct (py_div_cases (total_area cfg * exhibition_percent cfg * old_building_percent cfg) t)
    as [[Hz Hd]|[Hz Hd]]; rewrite Hd; cbn.
  - tauto.
  - rewrite (py_div_ok _ t Hz). cbn. split; [discriminate | tauto].
Qed.

Lemma init_returns (cfg : BuildingConfig) (icfg : InterventionConfig) :
  ~ total_effective_area cfg == 0 ->
  exists self, MFAEnergySavingsTool_init cfg icfg = Ok self
    /\ config self = cfg
    /\ interventions_config self = icfg
    /\ old_building_area self
         = total_area cfg * exhibition_percent cfg * old_building_percent cfg
    /\ new_building_area self
         = total_area cfg * exhibition_percent cfg * new_building_percent cfg
    /\ exhibition_energy self = total_site_energy cfg * exhibition_percent cfg
    /\ old_building_energy self
         = exhibition_energy self *
           (old_building_area self /
            (old_building_area self +
             new_building_area self * new_building_efficiency_factor cfg))
    /\ new_building_energy self
         = exhibition_energy self *
           (new_building_area self * new_building_efficiency_factor cfg /
            (old_building_area self +
             new_building_area self * new_building_efficiency_factor cfg)).
Proof.
  intros Hz.
  unfold MFAEnergySavingsTool_init, calculate_energy_allocation.
  unfold total_effective_area in Hz.
  rewrite !py_div_ok by exact Hz. cbn.
  eexists. split; [reflexivity|]. cbn. repeat split; reflexivity.
Qed.

(** ** Closed forms of the per-measure savings

    Each [_calculate_*_savings] returns (it never raises): the guard
    [measure not in interventions] protects the two subscripts. *)

Lemma hvac_rightsizing_closed (self : MFAEnergySavingsTool) (i : InterventionSelection) :
  _calculate_hvac_rightsizing_savings self i = Ok (hvac_rightsizing_value self i).
Proof.
  unfold _calculate_hvac_rightsizing_savings, hvac_rightsizing_value. measure_closed_form.
Qed.

Lemma humidity_control_closed (self : MFAEnergySavingsTool) (i : InterventionSelection) :
  _calculate_humidity_control_savings self i = Ok (humidity_control_value self i).
Proof.
  unfold _calculate_humidity_control_savings, humidity_control_value. measure_closed_form.
Qed.

Lemma vfd_closed (self : MFAEnergySavingsTool) (i : InterventionSelection) :
  _calculate_vfd_savings self i = Ok (vfd_value self i).
Proof. unfold _calculate_vfd_savings, vfd_value. measure_closed_form. Qed.

Lemma led_conversion_closed (self : MFAEnergySavingsTool) (i : InterventionSelection) :
  _calculate_led_conversion_savings self i = Ok (led_conversion_value self i).
Proof.
  unfold _calculate_led_conversion_savings, led_conversion_value. measure_closed_form.
Qed.

Lemma window_upgrade_closed (self : MFAEnergySavingsTool) (i : InterventionSelection) :
  _calculate_window_upgrade_savings self i = Ok (window_upgrade_value self i).
Proof.
  unfold _calculate_window_upgrade_savings, window_upgrade_value. measure_closed_form.
Qed.

(** ** Closed form of [calculate_savings] *)

Lemma calculate_savings_closed (self : MFAEnergySavingsTool) (i : InterventionSelection) :
  calculate_savings self i =
    new_eui ← py_div (total_site_energy (config self) - total_savings_value self i)
                     (total_area (config self));
    fraction ← py_div (total_savings_value self i) (total_site_energy (config self));
    Ok {| Individual_Savings := individual_values self i;
          Total_Savings := total_savings_value self i;
          New_Energy_Use := total_site_energy (config self) - total_savings_value self i;
          New_EUI := new_eui;
          Percent_Savings := fraction * 100;
          Baseline_EUI := eui (config self) |}.
Proof.
  unfold calculate_savings.
  rewrite hvac_rightsizing_closed, humidity_control_closed, vfd_closed,
    led_conversion_closed, window_upgrade_closed.
  reflexivity.
Qed.

Lemma calculate_savings_returns (self : MFAEnergySavingsTool) (i : InterventionSelection) :
  ~ total_area (config self) == 0 ->
  ~ total_site_energy (config self) == 0 ->
  calculate_savings self i = Ok (savings_report self i).
Proof.
  intros Ha He. rewrite calculate_savings_closed.
  rewrite (py_div_ok _ _ Ha), (py_div_ok _ _ He). reflexivity.
Qed.

Lemma calculate_savings_inv (self : MFAEnergySavingsTool) (i : InterventionSelection)
    (r : SavingsResult) :
  calculate_savings self i = Ok r ->
  r = savings_report self i
  /\ ~ total_area (config self) == 0
  /\ ~ total_site_energy (config self) == 0.
Proof.
  rewrite calculate_savings_closed.
  destruct (py_div_cases (total_site_energy (config self) - total_savings_value self i)
              (total_area (config self))) as [[Ha Hd]|[Ha Hd]]; rewrite Hd; cbn;
    [discriminate|].
  destruct (py_div_cases (total_savings_value self i)
              (total_site_energy (config self))) as [[He Hd']|[He Hd']]; rewrite Hd'; cbn;
    [discriminate|].
  intros [= <-]. auto.
Qed.

(** [calculate_savings] raises exactly when one of its two denominators is
    zero, and then it is a [ZeroDivisionError]. *)
Lemma calculate_savings_raises (self : MFAEnergySavingsTool) (i : InterventionSelection)
    (e : exn) :
  calculate_savings self i = Raise e ->
  e = ZeroDivisionError
  /\ (total_area (config self) == 0 \/ total_site_energy (config self) == 0).
Proof.
  rewrite calculate_savings_closed.
  destruct (py_div_cases (total_site_energy (config self) - total_savings_value self i)
              (total_area (config self))) as [[Ha Hd]|[Ha Hd]]; rewrite Hd; cbn.
  - intros [= <-]. auto.
  - destruct (py_div_cases (total_savings_value self i)
                (total_site_energy (config self))) as [[He Hd']|[He Hd']]; rewrite Hd'; cbn.
    + intros [= <-]. auto.
    + discriminate.
Qed.

(** ** Closed form of [estimate_costs_and_payback]

    Neither loop raises: every subscript is guarded by the [in] test just
    before it. *)

Lemma split_savings_closed (items : list (string * Q)) (acc : Q * Q) :
  split_savings items acc = Ok (split_value items acc).
Proof.
  revert acc. induction items as [|[measure savings] rest IH]; intros acc.
  - reflexivity.
  - cbn [split_savings split_value]. unfold alist_in, alist_getitem.
    destruct (alist_get elec_gas_split measure) as [sp|]; cbn; apply IH.
Qed.

Lemma implementation_cost_closed (self : MFAEnergySavingsTool)
    (i : InterventionSelection) (table : list (string * ZoneCost)) (acc : Q) :
  implementation_cost self i table acc = Ok (cost_value self i table acc).
Proof.
  revert acc. induction table as [|[measure details] rest IH]; intros acc.
  - reflexivity.
  - cbn [implementation_cost cost_value]. unfold py_in, py_getitem.
    destruct (i !! measure) as [d|]; cbn; apply IH.
Qed.

Lemma payback_never_raises (total_cost annual : Q) :
  (if py_gt annual 0 then q ← py_div total_cost annual; Ok (Fin q) else Ok PosInf)
  = Ok (payback_value total_cost annual).
Proof.
  unfold payback_value. destruct (py_gt annual 0) eqn:E; [|reflexivity].
  apply py_gt_true in E. rewrite py_div_ok by lra. reflexivity.
Qed.

Lemma estimate_closed (self : MFAEnergySavingsTool) (i : InterventionSelection)
    (sr : SavingsResult) (cf : CostFactors) :
  estimate_costs_and_payback self i sr cf =
    _ ← py_div (fst (split_value (Individual_Savings sr) (0, 0))) (kbtu_to_kwh cf);
    _ ← py_div (snd (split_value (Individual_Savings sr) (0, 0))) (kbtu_to_therm cf);
    Ok (financial_report self i sr cf).
Proof.
  unfold estimate_costs_and_payback.
  rewrite split_savings_closed. cbn [mbind result_bind].
  destruct (py_div_cases (fst (split_value (Individual_Savings sr) (0, 0))) (kbtu_to_kwh cf))
    as [[Hk Hd]|[Hk Hd]]; rewrite Hd; cbn [mbind result_bind]; [reflexivity|].
  destruct (py_div_cases (snd (split_value (Individual_Savings sr) (0, 0))) (kbtu_to_therm cf))
    as [[Ht Hd']|[Ht Hd']]; rewrite Hd'; cbn [mbind result_bind]; [reflexivity|].
  rewrite implementation_cost_closed. cbn [mbind result_bind].
  rewrite payback_never_raises. reflexivity.
Qed.

Lemma estimate_returns (self : MFAEnergySavingsTool) (i : InterventionSelection)
    (sr : SavingsResult) (cf : CostFactors) :
  ~ kbtu_to_kwh cf == 0 -> ~ kbtu_to_therm cf == 0 ->
  estimate_costs_and_payback self i sr cf = Ok (financial_report self i sr cf).
Proof.
  intros Hk Ht. rewrite estimate_closed.
  rewrite (py_div_ok _ _ Hk), (py_div_ok _ _ Ht). reflexivity.
Qed.

(** The only exception [estimate_costs_and_payback] can raise is the
    [ZeroDivisionError] of a zero unit-conversion constant. *)
Lemma estimate_raises (self : MFAEnergySavingsTool) (i : InterventionSelection)
    (sr : SavingsResult) (cf : CostFactors) (e : exn) :
  estimate_costs_and_payback self i sr cf = Raise e ->
  e = ZeroDivisionError /\ (kbtu_to_kwh cf == 0 \/ kbtu_to_therm cf == 0).
Proof.
  rewrite estimate_closed.
  destruct (py_div_cases (fst (split_value (Individual_Savings sr) (0, 0))) (kbtu_to_kwh cf))
    as [[Hk Hd]|[Hk Hd]]; rewrite Hd; cbn [mbind result_bind].
  - intros [= <-]. auto.
  - destruct (py_div_cases (snd (split_value (Individual_Savings sr) (0, 0)))
                (kbtu_to_therm cf)) as [[Ht Hd']|[Ht Hd']];
      rewrite Hd'; cbn [mbind result_bind].
    + intros [= <-]. auto.
    + discriminate.
Qed.

Lemma default_tool_init :
  MFAEnergySavingsTool_init default_BuildingConfig default_InterventionConfig
  = Ok default_tool.
Proof. vm_compute. reflexivity. Qed.

Lemma negative_energy_tool_init :
  MFAEnergySavingsTool_init (with_total_site_energy (-100) default_BuildingConfig)
    default_InterventionConfig
  = Ok negative_energy_tool.
Proof. vm_compute. reflexivity. Qed.

Lemma zero_energy_tool_init :
  MFAEnergySavingsTool_init (with_total_site_energy 0 default_BuildingConfig)
    default_InterventionConfig
  = Ok zero_energy_tool.
Proof. vm_compute. reflexivity. Qed.

(** ** [calculate_baseline] never raises *)

Lemma calculate_baseline_returns (self : MFAEnergySavingsTool) :
  exists r, calculate_baseline self = Ok r
    /\ (old_building_area self <= 0 -> Old_Building_EUI r = 0)
    /\ (new_building_area self <= 0 -> New_Building_EUI r = 0)
    /\ (Old_Building_EUI r <= 0 -> EUI_Ratio r = 0).
Proof.
  unfold calculate_baseline.
  set (oe := if py_gt (old_building_area self) 0 then _ else _).
  assert (Ho : exists x, oe = Ok x /\ (old_building_area self <= 0 -> x = 0)).
  { subst oe. destruct (py_gt (old_building_area self) 0) eqn:E.
    - apply py_gt_true in E. rewrite py_div_ok by lra.
      eexists; split; [reflexivity | intros; lra].
    - eexists; split; [reflexivity | reflexivity]. }
  destruct Ho as (x & -> & Hx). cbn [mbind result_bind].
  set (ne := if py_gt (new_building_area self) 0 then _ else _).
  assert (Hn : exists y, ne = Ok y /\ (new_building_area self <= 0 -> y = 0)).
  { subst ne. destruct (py_gt (new_building_area self) 0) eqn:E.
    - apply py_gt_true in E. rewrite py_div_ok by lra.
      eexists; split; [reflexivity | intros; lra].
    - eexists; split; [reflexivity | reflexivity]. }
  destruct Hn as (y & -> & Hy). cbn [mbind result_bind].
  set (ra := if py_gt x 0 then _ else _).
  assert (Hr : exists w, ra = Ok w /\ (x <= 0 -> w = 0)).
  { subst ra. destruct (py_gt x 0) eqn:E.
    - apply py_gt_true in E. rewrite py_div_ok by lra.
      eexists; split; [reflexivity | intros; lra].
    - eexists; split; [reflexivity | reflexivity]. }
  destruct Hr as (w & -> & Hw). cbn [mbind result_bind].
  eexists. split; [reflexivity|]. cbn. auto.
Qed.

(** ** C1 *)

(** C1 (evaluation of the code where the claim fails).  The claim says that
    no operation raises a division-by-zero error, for any [BuildingConfig].
    On the code, constructing the engine with [exhibition_percent=0] (or
    [total_area=0]) raises [ZeroDivisionError], and so does
    [calculate_savings] on an engine built with [total_site_energy=0]. *)
Theorem C1_unguarded_divisions_raise :
  MFAEnergySavingsTool_init (with_exhibition_percent 0 default_BuildingConfig)
    default_InterventionConfig = Raise ZeroDivisionError
  /\ MFAEnergySavingsTool_init (with_total_area 0 default_BuildingConfig)
       default_InterventionConfig = Raise ZeroDivisionError
  /\ MFAEnergySavingsTool_init (with_total_site_energy 0 default_BuildingConfig)
       default_InterventionConfig = Ok zero_energy_tool
  /\ calculate_savings zero_energy_tool dashboard_selection = Raise ZeroDivisionError
  /\ calculate_savings zero_energy_tool ∅ = Raise ZeroDivisionError.
Proof.
  repeat split; vm_compute; reflexivity.
Qed.

(** ** C2 *)

(** C2 (counterexample).  With the default configuration the old-zone area
    is not within one square foot of 241,214.76 and the new-zone area is not
    within one square foot of 68,005.24. *)
Lemma C2_spec_figures_refuted :
  MFAEnergySavingsTool_init default_BuildingConfig default_InterventionConfig
    = Ok default_tool
  /\ ~ approx 1 (old_building_area default_tool) 241214.76
  /\ ~ approx 1 (new_building_area default_tool) 68005.24.
Proof.
  split; [exact default_tool_init|].
  split; intros H; vm_compute in H; apply H; reflexivity.
Qed.

(** C2 (amended).  With the default configuration the engine is constructed
    and its old-zone exhibition area is 630800 × 0.49 × 0.78 = 241,091.76
    sq ft, its new-zone exhibition area 630800 × 0.49 × 0.22 = 68,000.24
    sq ft. *)
Theorem C2_default_zone_areas :
  MFAEnergySavingsTool_init default_BuildingConfig default_InterventionConfig
    = Ok default_tool
  /\ old_building_area default_tool == 630800 * 0.49 * 0.78
  /\ new_building_area default_tool == 630800 * 0.49 * 0.22
  /\ old_building_area default_tool == 241091.76
  /\ new_building_area default_tool == 68000.24.
Proof.
  split; [exact default_tool_init|].
  repeat split; vm_compute; reflexivity.
Qed.

(** ** C8 *)

(** C8.  For every configuration whose total effective area
    [old_area + new_area × new_building_efficiency_factor] is positive, the
    engine is constructed, its exhibition energy is
    [total_site_energy × exhibition_percent], and that energy is allocated by
    effective-area ratio: the old zone gets
    [exhibition_energy × old_area / (old_area + new_area × factor)] (its area
    undiscounted) and the new zone
    [exhibition_energy × (new_area × factor) / (old_area + new_area × factor)]. *)
Theorem C8_effective_area_allocation (cfg : BuildingConfig) (icfg : InterventionConfig) :
  0 < total_effective_area cfg ->
  exists self,
    MFAEnergySavingsTool_init cfg icfg = Ok self
    /\ old_building_area self
         == total_area cfg * exhibition_percent cfg * old_building_percent cfg
    /\ new_building_area self
         == total_area cfg * exhibition_percent cfg * new_building_percent cfg
    /\ exhibition_energy self == total_site_energy cfg * exhibition_percent cfg
    /\ old_building_energy self
         == exhibition_energy self * old_building_area self
            / (old_building_area self
               + new_building_area self * new_building_efficiency_factor cfg)
    /\ new_building_energy self
         == exhibition_energy self
            * (new_building_area self * new_building_efficiency_factor cfg)
            / (old_building_area self
               + new_building_area self * new_building_efficiency_factor cfg).
Proof.
  intros Hpos.
  destruct (init_returns cfg icfg) as (self & Hinit & _ & _ & Ho & Hn & He & Hoe & Hne).
  { lra. }
  exists self. split; [exact Hinit|].
  rewrite Hoe, Hne. clear Hoe Hne.
  assert (Hnz : ~ old_building_area self
                  + new_building_area self * new_building_efficiency_factor cfg == 0).
  { rewrite Ho, Hn. unfold total_effective_area in Hpos. lra. }
  rewrite He, Ho, Hn in *.
  repeat split; try reflexivity; field; exact Hnz.
Qed.

Lemma C8_effective_area_allocation_witness :
  exists self,
    MFAEnergySavingsTool_init default_BuildingConfig default_InterventionConfig = Ok self
    /\ old_building_energy self
         == exhibition_energy self * old_building_area self
            / (old_building_area self
               + new_building_area self
                 * new_building_efficiency_factor default_BuildingConfig).
Proof.
  destruct (C8_effective_area_allocation default_BuildingConfig default_InterventionConfig)
    as (self & Hinit & _ & _ & _ & Hold & _).
  - vm_compute. reflexivity.
  - exists self. split; [exact Hinit | exact Hold].
Defined.

(** ** C3 *)

(** C3.  Whenever [calculate_savings] returns, for any selection (adoption
    percentages up to 100% or not), the five individual savings are the
    results [s1 .. s5] of the five per-measure functions, the HVAC-adjacent
    contribution is [min(s_hvac + s_hum + s_vfd + s_win, 0.95 × total_hvac)],
    which is at most [0.95 × total_hvac], and Total Savings is that
    contribution plus the LED savings, uncapped. *)
Theorem C3_hvac_cap_led_uncapped (self : MFAEnergySavingsTool)
    (i : InterventionSelection) (r : SavingsResult) :
  calculate_savings self i = Ok r ->
  exists s_hvac s_hum s_vfd s_led s_win hvac_contribution,
    _calculate_hvac_rightsizing_savings self i = Ok s_hvac
    /\ _calculate_humidity_control_savings self i = Ok s_hum
    /\ _calculate_vfd_savings self i = Ok s_vfd
    /\ _calculate_led_conversion_savings self i = Ok s_led
    /\ _calculate_window_upgrade_savings self i = Ok s_win
    /\ hvac_contribution == Qmin (s_hvac + s_hum + s_vfd + s_win) (0.95 * total_hvac self)
    /\ hvac_contribution <= 0.95 * total_hvac self
    /\ Total_Savings r = hvac_contribution + s_led.
Proof.
  intros Hr. apply calculate_savings_inv in Hr as (-> & _ & _).
  exists (hvac_rightsizing_value self i), (humidity_control_value self i),
    (vfd_value self i), (led_conversion_value self i), (window_upgrade_value self i),
    (py_min (hvac_adjacent_sum self i) (0.95 * total_hvac self)).
  split; [apply hvac_rightsizing_closed|].
  split; [apply humidity_control_closed|].
  split; [apply vfd_closed|].
  split; [apply led_conversion_closed|].
  split; [apply window_upgrade_closed|].
  split; [|split].
  - rewrite py_min_Qmin. unfold hvac_adjacent_sum.
    apply Q.min_compat; [lra | reflexivity].
  - apply py_min_le_r.
  - reflexivity.
Qed.

Lemma C3_hvac_cap_led_uncapped_witness :
  exists r s_led hvac_contribution,
    calculate_savings default_tool dashboard_selection = Ok r
    /\ _calculate_led_conversion_savings default_tool dashboard_selection = Ok s_led
    /\ hvac_contribution <= 0.95 * total_hvac default_tool
    /\ Total_Savings r = hvac_contribution + s_led.
Proof.
  assert (Hr : calculate_savings default_tool dashboard_selection
               = Ok (savings_report default_tool dashboard_selection)).
  { apply calculate_savings_returns; vm_compute; discriminate. }
  destruct (C3_hvac_cap_led_uncapped default_tool dashboard_selection _ Hr)
    as (s1 & s2 & s3 & s4 & s5 & h & _ & _ & _ & Hled & _ & _ & Hcap & Htot).
  exists (savings_report default_tool dashboard_selection), s4, h.
  repeat split; assumption.
Defined.

(** ** C7 *)

Lemma split_individual_values (self : MFAEnergySavingsTool) (i : InterventionSelection) :
  split_value (individual_values self i) (0, 0)
  = (0 + hvac_rightsizing_value self i * 0.40
       + humidity_control_value self i * 0.30
       + vfd_value self i * 1.0
       + led_conversion_value self i * 1.0
       + window_upgrade_value self i * 0.25,
     0 + hvac_rightsizing_value self i * 0.60
       + humidity_control_value self i * 0.70
       + vfd_value self i * 0.0
       + led_conversion_value self i * 0.0
       + window_upgrade_value self i * 0.75).
Proof. reflexivity. Qed.

Lemma estimate_inv (self : MFAEnergySavingsTool) (i : InterventionSelection)
    (sr : SavingsResult) (cf : CostFactors) (r : FinancialReport) :
  estimate_costs_and_payback self i sr cf = Ok r ->
  r = financial_report self i sr cf.
Proof.
  rewrite estimate_closed.
  destruct (py_div _ (kbtu_to_kwh cf)); [|discriminate].
  destruct (py_div _ (kbtu_to_therm cf)); [|discriminate].
  cbn. congruence.
Qed.





(** ** What a constructed engine knows *)

Lemma init_inv (cfg : BuildingConfig) (icfg : InterventionConfig)
    (self : MFAEnergySavingsTool) :
  MFAEnergySavingsTool_init cfg icfg = Ok self ->
  ~ total_effective_area cfg == 0
  /\ ~ total_area cfg == 0
  /\ config self = cfg
  /\ interventions_config self = icfg.
Proof.
  intros Hinit.
  destruct (Qeq_dec (total_effective_area cfg) 0) as [Hz|Hz].
  - apply (init_raises_iff cfg icfg) in Hz. congruence.
  - destruct (init_returns cfg icfg Hz) as (self' & Hinit' & Hc & Hi & _).
    assert (self' = self) by congruence. subst self'.
    repeat split; try assumption.
    intros Ha. apply Hz. unfold total_effective_area. rewrite Ha. ring.
Qed.

(** ** C4 *)

(** C4.  LED savings are computed from the effective adoption
    [max(0, requested/100 − current_led_percentage)], taken for the old and
    for the new zone independently (a missing zone key counts as a request of
    0, an absent measure gives 0); consequently they are 0 whenever both
    zones' requested percentages are at most [100 × current_led_percentage]. *)
Theorem C4_led_incremental_adoption (self : MFAEnergySavingsTool)
    (i : InterventionSelection) :
  (exists s,
     _calculate_led_conversion_savings self i = Ok s
     /\ s == match i !! "led_conversion" with
             | None => 0
             | Some d =>
                 old_building_lighting self * led_conversion_factor (interventions_config self)
                 * Qmax 0 (py_get d "old" 0 / 100 - current_led_percentage (config self))
                 + new_building_lighting self
                   * led_conversion_factor (interventions_config self)
                   * Qmax 0 (py_get d "new" 0 / 100 - current_led_percentage (config self))
             end)
  /\ ((forall d, i !! "led_conversion" = Some d ->
         py_get d "old" 0 <= 100 * current_led_percentage (config self)
         /\ py_get d "new" 0 <= 100 * current_led_percentage (config self)) ->
      exists s, _calculate_led_conversion_savings self i = Ok s /\ s == 0).
Proof.
  split.
  - exists (led_conversion_value self i). split; [apply led_conversion_closed|].
    unfold led_conversion_value, measure_value.
    destruct (i !! "led_conversion") as [d|]; [|reflexivity].
    rewrite !py_max_Qmax. reflexivity.
  - intros Hle. exists (led_conversion_value self i).
    split; [apply led_conversion_closed|].
    unfold led_conversion_value, measure_value.
    destruct (i !! "led_conversion") as [d|]; [|reflexivity].
    destruct (Hle d eq_refl) as [Ho Hn].
    rewrite !py_max_0_nonpos by (rewrite div_100; lra). ring.
Qed.

Lemma C4_led_incremental_adoption_witness :
  exists s,
    _calculate_led_conversion_savings default_tool (led_selection 70 50) = Ok s
    /\ s == 0.
Proof.
  apply (C4_led_incremental_adoption default_tool (led_selection 70 50)).
  intros d Hd. vm_compute in Hd. injection Hd as <-.
  split; vm_compute; discriminate.
Defined.

(** ** C5 *)

(** C5 (counterexample).  On the engine built from the default configuration
    with [total_site_energy=-100], the empty selection gives a Total Savings
    that is not 0 and a New Energy Use that is not the baseline. *)
Lemma C5_negative_hvac_refutes :
  MFAEnergySavingsTool_init (with_total_site_energy (-100) default_BuildingConfig)
    default_InterventionConfig = Ok negative_energy_tool
  /\ exists r,
       calculate_savings negative_energy_tool ∅ = Ok r
       /\ ~ Total_Savings r == 0
       /\ ~ New_Energy_Use r == total_site_energy (config negative_energy_tool).
Proof.
  split; [exact negative_energy_tool_init|].
  exists (savings_report negative_energy_tool ∅).
  split; [|split].
  - apply calculate_savings_returns; vm_compute; discriminate.
  - vm_compute. discriminate.
  - vm_compute. discriminate.
Qed.

(** C5 (amended).  For every constructed engine whose total baseline HVAC
    energy is nonnegative (and whose [total_site_energy] is not zero),
    [calculate_savings] on the empty selection returns, with every individual
    saving 0, Total Savings 0 and New Energy Use equal to the baseline
    [total_site_energy]; and for any selection, a measure whose key is absent
    contributes 0 without error. *)
Theorem C5_empty_selection_saves_nothing (cfg : BuildingConfig)
    (icfg : InterventionConfig) (self : MFAEnergySavingsTool) :
  MFAEnergySavingsTool_init cfg icfg = Ok self ->
  ~ total_site_energy cfg == 0 ->
  0 <= total_hvac self ->
  (exists r,
     calculate_savings self ∅ = Ok r
     /\ Individual_Savings r
        = [("hvac_rightsizing", 0); ("humidity_control", 0); ("vfd", 0);
           ("led_conversion", 0); ("window_upgrades", 0)]%string
     /\ Total_Savings r == 0
     /\ New_Energy_Use r == total_site_energy cfg)
  /\ (forall i : InterventionSelection,
        (i !! "hvac_rightsizing" = None ->
         _calculate_hvac_rightsizing_savings self i = Ok 0)
        /\ (i !! "humidity_control" = None ->
            _calculate_humidity_control_savings self i = Ok 0)
        /\ (i !! "vfd" = None -> _calculate_vfd_savings self i = Ok 0)
        /\ (i !! "led_conversion" = None ->
            _calculate_led_conversion_savings self i = Ok 0)
        /\ (i !! "window_upgrades" = None ->
            _calculate_window_upgrade_savings self i = Ok 0)).
Proof.
  intros Hinit He Hhvac.
  destruct (init_inv _ _ _ Hinit) as (_ & Ha & Hc & _).
  split.
  - exists (savings_report self ∅).
    split; [apply calculate_savings_returns; rewrite Hc; assumption|].
    assert (Hind : individual_values self ∅
                   = [("hvac_rightsizing", 0); ("humidity_control", 0); ("vfd", 0);
                      ("led_conversion", 0); ("window_upgrades", 0)]%string)
      by reflexivity.
    assert (Htot : total_savings_value self ∅ == 0).
    { unfold total_savings_value.
      change (hvac_adjacent_sum self ∅) with (0 + 0 + 0 + 0 + 0).
      change (led_conversion_value self ∅) with 0.
      unfold py_min.
      destruct (py_gt (0 + 0 + 0 + 0 + 0) (0.95 * total_hvac self)) eqn:E.
      - apply py_gt_true in E. lra.
      - lra. }
    split; [exact Hind|]. cbn [savings_report Total_Savings New_Energy_Use].
    rewrite Hc. split; [exact Htot | rewrite Htot; ring].
  - intros i.
    unfold _calculate_hvac_rightsizing_savings, _calculate_humidity_control_savings,
      _calculate_vfd_savings, _calculate_led_conversion_savings,
      _calculate_window_upgrade_savings, py_in.
    repeat split; intros ->; reflexivity.
Qed.

Lemma C5_empty_selection_saves_nothing_witness :
  exists r,
    calculate_savings default_tool ∅ = Ok r
    /\ Total_Savings r == 0
    /\ New_Energy_Use r == total_site_energy default_BuildingConfig.
Proof.
  destruct (C5_empty_selection_saves_nothing default_BuildingConfig
              default_InterventionConfig default_tool) as [(r & Hr & _ & Ht & Hn) _].
  - exact default_tool_init.
  - vm_compute. discriminate.
  - vm_compute. discriminate.
  - exists r. repeat split; assumption.
Defined.

(** ** C9 *)

(** C9 (counterexample).  On binary64 numbers, for the engine of the default
    configuration and the selection
    [{'hvac_rightsizing': {'old': 0, 'new': 45}}], the individual savings are
    1918328.5334870087 for HVAC rightsizing and 0 for the four other
    measures, so their plain sum is 1918328.5334870087, while the first loop
    of [estimate_costs_and_payback] ends with
    [electricity_savings_kbtu + gas_savings_kbtu = 1918328.533487009]: the
    two are not equal. *)
Lemma C9_float_sum_refuted :
  exists self sr kbtu,
    Float64.MFAEnergySavingsTool_init Float64.default_BuildingConfig
      Float64.default_InterventionConfig = Ok self
    /\ Float64.calculate_savings self Float64.hvac_new_45_selection = Ok sr
    /\ Float64.split_savings (Float64.Individual_Savings sr) Float64.no_kbtu = Ok kbtu
    /\ Float64.plain_sum (Float64.Individual_Savings sr) = Float64.sum_of_savings_at_45
    /\ Float64.py_add (fst kbtu) (snd kbtu) = Float64.electricity_plus_gas_at_45
    /\ Float64.py_eq (Float64.py_add (fst kbtu) (snd kbtu))
         (Float64.plain_sum (Float64.Individual_Savings sr)) = false.
Proof.
  eexists _, _, _.
  split; [vm_compute; reflexivity|].
  split; [vm_compute; reflexivity|].
  split; [vm_compute; reflexivity|].
  repeat split; vm_compute; reflexivity.
Qed.

(** C9 (amended).  When the savings report comes from [calculate_savings],
    the first loop of [estimate_costs_and_payback] ends with
    [electricity_savings_kbtu = 0 + s_hvac × 0.40 + s_hum × 0.30 + s_vfd × 1.0
    + s_led × 1.0 + s_win × 0.25] and [gas_savings_kbtu = 0 + s_hvac × 0.60 +
    s_hum × 0.70 + s_vfd × 0.0 + s_led × 0.0 + s_win × 0.75] in the five
    individual (uncapped) savings, where the two weights of every measure add
    up to 1.  Every figure of the financial report is
    computed from these two quantities (dollar savings with the rates, CO2
    reductions with the emission factors, after the unit conversions), the
    report exists as soon as the two conversion constants are not zero, and
    it does not depend on Total Savings: another savings report with the same
    individual savings, capped or not, gives the same financial report. *)
Theorem C9_financials_from_uncapped_savings (self : MFAEnergySavingsTool)
    (i : InterventionSelection) (sr : SavingsResult) (cf : CostFactors) :
  calculate_savings self i = Ok sr ->
  exists s_hvac s_hum s_vfd s_led s_win kbtu,
    _calculate_hvac_rightsizing_savings self i = Ok s_hvac
    /\ _calculate_humidity_control_savings self i = Ok s_hum
    /\ _calculate_vfd_savings self i = Ok s_vfd
    /\ _calculate_led_conversion_savings self i = Ok s_led
    /\ _calculate_window_upgrade_savings self i = Ok s_win
    /\ split_savings (Individual_Savings sr) (0, 0) = Ok kbtu
    /\ fst kbtu
       = 0 + s_hvac * 0.40 + s_hum * 0.30 + s_vfd * 1.0 + s_led * 1.0 + s_win * 0.25
    /\ snd kbtu
       = 0 + s_hvac * 0.60 + s_hum * 0.70 + s_vfd * 0.0 + s_led * 0.0 + s_win * 0.75
    /\ (forall measure sp, In (measure, sp) elec_gas_split -> elec sp + gas sp == 1)
    /\ (forall r,
          estimate_costs_and_payback self i sr cf = Ok r ->
          Electricity_Savings r = fst kbtu / kbtu_to_kwh cf * elec_rate cf
          /\ Natural_Gas_Savings r = snd kbtu / kbtu_to_therm cf * gas_rate cf
          /\ Annual_Cost_Savings r = Electricity_Savings r + Natural_Gas_Savings r
          /\ Electricity_CO2_Reduction r
             = fst kbtu / kbtu_to_kwh cf * co2_factor_elec cf
          /\ Natural_Gas_CO2_Reduction r
             = snd kbtu / kbtu_to_therm cf * co2_factor_gas cf
          /\ CO2_Reduction r
             = Electricity_CO2_Reduction r + Natural_Gas_CO2_Reduction r)
    /\ (~ kbtu_to_kwh cf == 0 -> ~ kbtu_to_therm cf == 0 ->
        exists r, estimate_costs_and_payback self i sr cf = Ok r)
    /\ (forall sr' : SavingsResult,
          Individual_Savings sr' = Individual_Savings sr ->
          estimate_costs_and_payback self i sr' cf
          = estimate_costs_and_payback self i sr cf).
Proof.
  intros Hr. apply calculate_savings_inv in Hr as (-> & _ & _).
  exists (hvac_rightsizing_value self i), (humidity_control_value self i),
    (vfd_value self i), (led_conversion_value self i), (window_upgrade_value self i),
    (split_value (individual_values self i) (0, 0)).
  split; [apply hvac_rightsizing_closed|].
  split; [apply humidity_control_closed|].
  split; [apply vfd_closed|].
  split; [apply led_conversion_closed|].
  split; [apply window_upgrade_closed|].
  split; [apply split_savings_closed|].
  rewrite split_individual_values. cbn [fst snd].
  split; [reflexivity|]. split; [reflexivity|].
  split.
  { intros measure sp Hin. cbn in Hin.
    repeat (destruct Hin as [Heq|Hin];
            [injection Heq as _ <-; vm_compute; reflexivity|]).
    contradiction. }
  split; [|split].
  - intros r Hest. apply estimate_inv in Hest. subst r.
    unfold financial_report.
    cbn [Annual_Cost_Savings Electricity_Savings Natural_Gas_Savings CO2_Reduction
         Electricity_CO2_Reduction Natural_Gas_CO2_Reduction savings_report
         Individual_Savings].
    rewrite split_individual_values. cbn [fst snd].
    repeat split; reflexivity.
  - intros Hk Ht. eexists. apply estimate_returns; assumption.
  - intros sr' Hsame. unfold estimate_costs_and_payback. rewrite Hsame. reflexivity.
Qed.

Lemma C9_financials_from_uncapped_savings_witness :
  exists sr kbtu r,
    calculate_savings aggressive_tool full_hvac_selection = Ok sr
    /\ split_savings (Individual_Savings sr) (0, 0) = Ok kbtu
    /\ Total_Savings sr < fst kbtu + snd kbtu
    /\ estimate_costs_and_payback aggressive_tool full_hvac_selection sr
         default_CostFactors = Ok r
    /\ Electricity_Savings r
       = fst kbtu / kbtu_to_kwh default_CostFactors * elec_rate default_CostFactors
    /\ Natural_Gas_Savings r
       = snd kbtu / kbtu_to_therm default_CostFactors * gas_rate default_CostFactors.
Proof.
  assert (Hr : calculate_savings aggressive_tool full_hvac_selection
               = Ok (savings_report aggressive_tool full_hvac_selection)).
  { apply calculate_savings_returns; vm_compute; discriminate. }
  destruct (C9_financials_from_uncapped_savings aggressive_tool full_hvac_selection
              _ default_CostFactors Hr)
    as (s1 & s2 & s3 & s4 & s5 & kbtu & _ & _ & _ & _ & _ & Hk & _ & _ & _
        & Hfig & Hret & _).
  destruct Hret as (r & Hest); [vm_compute; discriminate ..|].
  destruct (Hfig r Hest) as (He & Hg & _).
  exists (savings_report aggressive_tool full_hvac_selection), kbtu, r.
  split; [exact Hr|]. split; [exact Hk|].
  split; [|split; [exact Hest|split; [exact He | exact Hg]]].
  rewrite split_savings_closed in Hk. injection Hk as <-.
  vm_compute. reflexivity.
Defined.

(** ** C6 *)

Lemma raise_adoption_le (i : InterventionSelection) (m z : string)
    (d : gmap string Q) (p : Q) :
  i !! m = Some d -> py_get d z 0 <= p ->
  selection_le i (<[m := <[z := p]> d]> i).
Proof.
  intros Hm Hp m'. destruct (decide (m = m')) as [<-|Hne].
  - rewrite lookup_insert_eq, Hm. unfold dict_le, py_get in *.
    split.
    + destruct (decide (z = "old"%string)) as [->|Hz].
      * rewrite lookup_insert_eq. exact Hp.
      * rewrite lookup_insert_ne by exact Hz. apply Qle_refl.
    + destruct (decide (z = "new"%string)) as [->|Hz].
      * rewrite lookup_insert_eq. exact Hp.
      * rewrite lookup_insert_ne by exact Hz. apply Qle_refl.
  - rewrite lookup_insert_ne by exact Hne.
    destruct (i !! m'); [|exact I]. split; apply Qle_refl.
Qed.

Lemma measure_value_mono (t_old t_new f : Q) (eff : Q -> Q)
    (i i' : InterventionSelection) (m : string) :
  0 <= t_old -> 0 <= t_new -> 0 <= f ->
  (forall a b, a <= b -> eff a <= eff b) ->
  selection_le i i' ->
  measure_value t_old t_new f eff i m <= measure_value t_old t_new f eff i' m.
Proof.
  intros Ho Hn Hf Heff Hle. unfold measure_value.
  specialize (Hle m).
  destruct (i !! m) as [d|], (i' !! m) as [d'|]; try contradiction; [|apply Qle_refl].
  destruct Hle as [Hold Hnew].
  assert (H1 : eff (py_get d "old" 0 / 100) <= eff (py_get d' "old" 0 / 100)).
  { apply Heff. rewrite !div_100. lra. }
  assert (H2 : eff (py_get d "new" 0 / 100) <= eff (py_get d' "new" 0 / 100)).
  { apply Heff. rewrite !div_100. lra. }
  assert (Hof : 0 <= t_old * f) by (apply Qmult_le_0_compat; assumption).
  assert (Hnf : 0 <= t_new * f) by (apply Qmult_le_0_compat; assumption).
  apply Qplus_le_compat.
  - rewrite !(Qmult_comm (t_old * f)). apply Qmult_le_compat_r; assumption.
  - rewrite !(Qmult_comm (t_new * f)). apply Qmult_le_compat_r; assumption.
Qed.

Lemma total_savings_value_mono (self : MFAEnergySavingsTool)
    (i i' : InterventionSelection) :
  nonneg_energies self -> nonneg_factors (interventions_config self) ->
  selection_le i i' ->
  total_savings_value self i <= total_savings_value self i'.
Proof.
  intros (Hoh & Hnh & Hof & Hnf & Hol & Hnl) (F1 & F2 & F3 & F4 & F5) Hle.
  unfold total_savings_value, hvac_adjacent_sum.
  assert (Hid : forall a b : Q, a <= b -> a <= b) by auto.
  pose proof (measure_value_mono _ _ _ (fun a => a) i i' "hvac_rightsizing"
                Hoh Hnh F1 Hid Hle) as M1.
  pose proof (measure_value_mono _ _ _ (fun a => a) i i' "humidity_control"
                Hoh Hnh F2 Hid Hle) as M2.
  pose proof (measure_value_mono _ _ _ (fun a => a) i i' "vfd"
                Hof Hnf F3 Hid Hle) as M3.
  pose proof (measure_value_mono _ _ _ (fun a => a) i i' "window_upgrades"
                Hoh Hnh F5 Hid Hle) as M5.
  assert (M4 : led_conversion_value self i <= led_conversion_value self i').
  { apply measure_value_mono; try assumption.
    intros a b Hab. apply py_max_0_mono. lra. }
  fold (hvac_rightsizing_value self i) (hvac_rightsizing_value self i') in M1.
  fold (humidity_control_value self i) (humidity_control_value self i') in M2.
  fold (vfd_value self i) (vfd_value self i') in M3.
  fold (window_upgrade_value self i) (window_upgrade_value self i') in M5.
  apply Qplus_le_compat; [|exact M4].
  apply py_min_mono. lra.
Qed.

(** C6.  For every constructed engine with nonnegative target energies,
    nonnegative effectiveness factors and a positive [total_site_energy],
    raising the adoption percentage of one zone [z] of one measure [m] of the
    selection (from its current value, 0 when the zone key is missing, to
    [p]) with everything else unchanged does not lower Percent Savings;
    [calculate_savings] returns on both selections. *)
Theorem C6_percent_savings_monotone (cfg : BuildingConfig) (icfg : InterventionConfig)
    (self : MFAEnergySavingsTool) (i : InterventionSelection)
    (m z : string) (d : gmap string Q) (p : Q) :
  MFAEnergySavingsTool_init cfg icfg = Ok self ->
  nonneg_energies self ->
  nonneg_factors icfg ->
  0 < total_site_energy cfg ->
  i !! m = Some d ->
  py_get d z 0 <= p ->
  exists r r',
    calculate_savings self i = Ok r
    /\ calculate_savings self (<[m := <[z := p]> d]> i) = Ok r'
    /\ Percent_Savings r <= Percent_Savings r'.
Proof.
  intros Hinit Hen Hfa Hpos Hm Hp.
  destruct (init_inv _ _ _ Hinit) as (_ & Ha & Hc & Hi).
  assert (Hnz : ~ total_site_energy (config self) == 0) by (rewrite Hc; lra).
  rewrite <- Hc in Ha. rewrite <- Hi in Hfa.
  exists (savings_report self i), (savings_report self (<[m := <[z := p]> d]> i)).
  split; [apply calculate_savings_returns; assumption|].
  split; [apply calculate_savings_returns; assumption|].
  cbn [savings_report Percent_Savings].
  pose proof (total_savings_value_mono self i _ Hen Hfa
                (raise_adoption_le i m z d p Hm Hp)) as Hmono.
  apply Qmult_le_compat_r; [|lra].
  apply Qmult_le_compat_r; [exact Hmono|].
  apply Qinv_le_0_compat. rewrite Hc. lra.
Qed.

Lemma C6_percent_savings_monotone_witness :
  exists r r',
    calculate_savings default_tool dashboard_selection = Ok r
    /\ calculate_savings default_tool
         (<["led_conversion" := <["new" := 100]> (zones 95 60)]> dashboard_selection)
       = Ok r'
    /\ Percent_Savings r <= Percent_Savings r'.
Proof.
  apply (C6_percent_savings_monotone default_BuildingConfig default_InterventionConfig
           default_tool dashboard_selection "led_conversion" "new" (zones 95 60) 100).
  - exact default_tool_init.
  - repeat split; vm_compute; discriminate.
  - repeat split; vm_compute; discriminate.
  - vm_compute. reflexivity.
  - vm_compute. reflexivity.
  - vm_compute. discriminate.
Defined.

(** Nonnegative configuration fields give nonnegative target energies. *)
Lemma nonneg_config_energies (cfg : BuildingConfig) (icfg : InterventionConfig)
    (self : MFAEnergySavingsTool) :
  MFAEnergySavingsTool_init cfg icfg = Ok self ->
  0 <= total_area cfg -> 0 <= exhibition_percent cfg ->
  0 <= old_building_percent cfg -> 0 <= new_building_percent cfg ->
  0 <= new_building_efficiency_factor cfg -> 0 <= total_site_energy cfg ->
  0 <= hvac_percent cfg -> 0 <= lighting_percent cfg -> 0 <= fan_percent_of_hvac cfg ->
  nonneg_energies self.
Proof.
  intros Hinit Ha Hx Hop Hnp Hf He Hh Hl Hfan.
  destruct (init_inv _ _ _ Hinit) as (Hz & _ & _ & _).
  unfold MFAEnergySavingsTool_init, calculate_energy_allocation in Hinit.
  unfold total_effective_area in Hz.
  rewrite !py_div_ok in Hinit by exact Hz. cbn in Hinit.
  injection Hinit as <-. unfold nonneg_energies. cbn.
  set (old := total_area cfg * exhibition_percent cfg * old_building_percent cfg) in *.
  set (new := total_area cfg * exhibition_percent cfg * new_building_percent cfg
              * new_building_efficiency_factor cfg) in *.
  assert (Hold : 0 <= old) by (subst old; repeat apply Qmult_le_0_compat; assumption).
  assert (Hnew : 0 <= new) by (subst new; repeat apply Qmult_le_0_compat; assumption).
  assert (Hsum : 0 < old + new) by lra.
  assert (Hro : 0 <= old / (old + new)).
  { apply Qle_shift_div_l; [exact Hsum | lra]. }
  assert (Hrn : 0 <= new / (old + new)).
  { apply Qle_shift_div_l; [exact Hsum | lra]. }
  assert (HE : 0 <= total_site_energy cfg * exhibition_percent cfg)
    by (apply Qmult_le_0_compat; assumption).
  repeat split; repeat (first [assumption | apply Qmult_le_0_compat]).
Qed.

(** ** C10 *)

Lemma py_get_missing {V : Type} (d : gmap string V) (k : string) (dflt : V) :
  d !! k = None -> py_get d k dflt = dflt.
Proof. intros H. unfold py_get. rewrite H. reflexivity. Qed.

Lemma py_get_insert_zero (d : gmap string Q) (z k : string) :
  d !! z = None -> py_get (<[z := 0]> d) k 0 = py_get d k 0.
Proof.
  intros Hz. unfold py_get. destruct (decide (z = k)) as [<-|Hne].
  - rewrite lookup_insert_eq, Hz. reflexivity.
  - rewrite lookup_insert_ne by exact Hne. reflexivity.
Qed.

Lemma measure_value_explicit_zero (t_old t_new f : Q) (eff : Q -> Q)
    (i : InterventionSelection) (m z : string) (d : gmap string Q) (m' : string) :
  i !! m = Some d -> d !! z = None ->
  measure_value t_old t_new f eff (<[m := <[z := 0]> d]> i) m'
  = measure_value t_old t_new f eff i m'.
Proof.
  intros Hm Hz. unfold measure_value. destruct (decide (m = m')) as [<-|Hne].
  - rewrite lookup_insert_eq, Hm, !py_get_insert_zero by exact Hz. reflexivity.
  - rewrite lookup_insert_ne by exact Hne. reflexivity.
Qed.

Lemma cost_value_explicit_zero (self : MFAEnergySavingsTool)
    (i : InterventionSelection) (m z : string) (d : gmap string Q)
    (table : list (string * ZoneCost)) (acc : Q) :
  i !! m = Some d -> d !! z = None ->
  cost_value self (<[m := <[z := 0]> d]> i) table acc = cost_value self i table acc.
Proof.
  intros Hm Hz. revert acc.
  induction table as [|[m' details] rest IH]; intros acc; [reflexivity|].
  cbn [cost_value]. destruct (decide (m = m')) as [<-|Hne].
  - rewrite lookup_insert_eq, Hm, !py_get_insert_zero by exact Hz. apply IH.
  - rewrite lookup_insert_ne by exact Hne. destruct (i !! m'); apply IH.
Qed.

Lemma savings_report_explicit_zero (self : MFAEnergySavingsTool)
    (i : InterventionSelection) (m z : string) (d : gmap string Q) :
  i !! m = Some d -> d !! z = None ->
  calculate_savings self (<[m := <[z := 0]> d]> i) = calculate_savings self i.
Proof.
  intros Hm Hz. rewrite !calculate_savings_closed.
  unfold total_savings_value, hvac_adjacent_sum, individual_values,
    hvac_rightsizing_value, humidity_control_value, vfd_value, led_conversion_value,
    window_upgrade_value.
  rewrite !(measure_value_explicit_zero _ _ _ _ i m z d _ Hm Hz). reflexivity.
Qed.

Lemma estimate_explicit_zero (self : MFAEnergySavingsTool)
    (i : InterventionSelection) (sr : SavingsResult) (cf : CostFactors)
    (m z : string) (d : gmap string Q) :
  i !! m = Some d -> d !! z = None ->
  estimate_costs_and_payback self (<[m := <[z := 0]> d]> i) sr cf
  = estimate_costs_and_payback self i sr cf.
Proof.
  intros Hm Hz. rewrite !estimate_closed. unfold financial_report.
  rewrite (cost_value_explicit_zero self i m z d _ _ Hm Hz). reflexivity.
Qed.

(** C10.  When the entry [d] of measure [m] is present in the selection but
    its zone key [z] is missing, [calculate_savings] and
    [estimate_costs_and_payback] behave exactly as on the selection where
    that key is present with adoption 0, and neither raises a [KeyError];
    the zone then contributes nothing to the measure's savings (for LED
    conversion: given a nonnegative [current_led_percentage]) nor to the
    measure's implementation cost. *)
Theorem C10_missing_zone_key_is_zero_adoption (self : MFAEnergySavingsTool)
    (i : InterventionSelection) (sr : SavingsResult) (cf : CostFactors)
    (m z : string) (d : gmap string Q) :
  i !! m = Some d ->
  d !! z = None ->
  calculate_savings self i = calculate_savings self (<[m := <[z := 0]> d]> i)
  /\ estimate_costs_and_payback self i sr cf
     = estimate_costs_and_payback self (<[m := <[z := 0]> d]> i) sr cf
  /\ (forall k, calculate_savings self i <> Raise (KeyError k))
  /\ (forall k, estimate_costs_and_payback self i sr cf <> Raise (KeyError k))
  /\ (z = "old"%string ->
      (m = "hvac_rightsizing"%string ->
       saves (_calculate_hvac_rightsizing_savings self i)
         (new_building_hvac self * hvac_rightsizing_factor (interventions_config self)
          * (py_get d "new" 0 / 100)))
      /\ (m = "humidity_control"%string ->
          saves (_calculate_humidity_control_savings self i)
            (new_building_hvac self * humidity_control_factor (interventions_config self)
             * (py_get d "new" 0 / 100)))
      /\ (m = "vfd"%string ->
          saves (_calculate_vfd_savings self i)
            (new_building_fan self * vfd_factor (interventions_config self)
             * (py_get d "new" 0 / 100)))
      /\ (m = "led_conversion"%string ->
          0 <= current_led_percentage (config self) ->
          saves (_calculate_led_conversion_savings self i)
            (new_building_lighting self * led_conversion_factor (interventions_config self)
             * Qmax 0 (py_get d "new" 0 / 100 - current_led_percentage (config self))))
      /\ (m = "window_upgrades"%string ->
          saves (_calculate_window_upgrade_savings self i)
            (new_building_hvac self * window_upgrade_factor (interventions_config self)
             * (py_get d "new" 0 / 100)))
      /\ (forall details acc,
            saves (implementation_cost self i [(m, details)] acc)
              (acc + new_building_area self * cost_new details
                     * (py_get d "new" 0 / 100))))
  /\ (z = "new"%string ->
      (m = "hvac_rightsizing"%string ->
       saves (_calculate_hvac_rightsizing_savings self i)
         (old_building_hvac self * hvac_rightsizing_factor (interventions_config self)
          * (py_get d "old" 0 / 100)))
      /\ (m = "humidity_control"%string ->
          saves (_calculate_humidity_control_savings self i)
            (old_building_hvac self * humidity_control_factor (interventions_config self)
             * (py_get d "old" 0 / 100)))
      /\ (m = "vfd"%string ->
          saves (_calculate_vfd_savings self i)
            (old_building_fan self * vfd_factor (interventions_config self)
             * (py_get d "old" 0 / 100)))
      /\ (m = "led_conversion"%string ->
          0 <= current_led_percentage (config self) ->
          saves (_calculate_led_conversion_savings self i)
            (old_building_lighting self * led_conversion_factor (interventions_config self)
             * Qmax 0 (py_get d "old" 0 / 100 - current_led_percentage (config self))))
      /\ (m = "window_upgrades"%string ->
          saves (_calculate_window_upgrade_savings self i)
            (old_building_hvac self * window_upgrade_factor (interventions_config self)
             * (py_get d "old" 0 / 100)))
      /\ (forall details acc,
            saves (implementation_cost self i [(m, details)] acc)
              (acc + old_building_area self * cost_old details
                     * (py_get d "old" 0 / 100)))).
Proof.
  intros Hm Hz.
  split; [symmetry; apply savings_report_explicit_zero; assumption|].
  split; [symmetry; apply estimate_explicit_zero; assumption|].
  split; [intros k Hk; apply calculate_savings_raises in Hk as [[=] _]|].
  split; [intros k Hk; apply estimate_raises in Hk as [[=] _]|].
  split; intros ->.
  - repeat split; try (intros; subst; eexists; split;
      [ first [ apply hvac_rightsizing_closed | apply humidity_control_closed
              | apply vfd_closed | apply led_conversion_closed
              | apply window_upgrade_closed ]
      | unfold hvac_rightsizing_value, humidity_control_value, vfd_value,
          led_conversion_value, window_upgrade_value, measure_value;
        rewrite Hm, (py_get_missing _ _ 0 Hz);
        rewrite ?py_max_Qmax; rewrite ?(div_100 0);
        try (rewrite (Q.max_l 0 (0 * 0.01 - _)) by lra); ring ]).
    intros details acc. eexists. split; [apply implementation_cost_closed|].
    cbn [cost_value]. rewrite Hm, (py_get_missing _ _ 0 Hz), (div_100 0). ring.
  - repeat split; try (intros; subst; eexists; split;
      [ first [ apply hvac_rightsizing_closed | apply humidity_control_closed
              | apply vfd_closed | apply led_conversion_closed
              | apply window_upgrade_closed ]
      | unfold hvac_rightsizing_value, humidity_control_value, vfd_value,
          led_conversion_value, window_upgrade_value, measure_value;
        rewrite Hm, (py_get_missing _ _ 0 Hz);
        rewrite ?py_max_Qmax; rewrite ?(div_100 0);
        try (rewrite (Q.max_l 0 (0 * 0.01 - _)) by lra); ring ]).
    intros details acc. eexists. split; [apply implementation_cost_closed|].
    cbn [cost_value]. rewrite Hm, (py_get_missing _ _ 0 Hz), (div_100 0). ring.
Qed.

Lemma C10_missing_zone_key_is_zero_adoption_witness :
  calculate_savings default_tool hvac_new_only_selection
  = calculate_savings default_tool
      (<["hvac_rightsizing" := <["old" := 0]> (new_zone_only 25)]>
         hvac_new_only_selection)
  /\ saves (_calculate_hvac_rightsizing_savings default_tool hvac_new_only_selection)
       (new_building_hvac default_tool
        * hvac_rightsizing_factor (interventions_config default_tool)
        * (py_get (new_zone_only 25) "new" 0 / 100)).
Proof.
  destruct (C10_missing_zone_key_is_zero_adoption default_tool hvac_new_only_selection
              (savings_report default_tool hvac_new_only_selection) default_CostFactors
              "hvac_rightsizing" "old" (new_zone_only 25))
    as (Hs & _ & _ & _ & Hold & _).
  - vm_compute. reflexivity.
  - vm_compute. reflexivity.
  - split; [exact Hs|].
    destruct (Hold eq_refl) as (Hh & _). exact (Hh eq_refl).
Defined.

(** * Further properties of the engine *)

(** ** Fields of a constructed engine *)

Lemma init_fields (cfg : BuildingConfig) (icfg : InterventionConfig)
    (self : MFAEnergySavingsTool) :
  MFAEnergySavingsTool_init cfg icfg = Ok self ->
  self =
    let old_area := total_area cfg * exhibition_percent cfg * old_building_percent cfg in
    let new_area := total_area cfg * exhibition_percent cfg * new_building_percent cfg in
    let energy := total_site_energy cfg * exhibition_percent cfg in
    let total := old_area + new_area * new_building_efficiency_factor cfg in
    let eu := calculate_end_use_breakdown cfg
                (energy * (old_area / total))
                (energy * (new_area * new_building_efficiency_factor cfg / total)) in
    {| config := cfg;
       interventions_config := icfg;
       exhibition_area := total_area cfg * exhibition_percent cfg;
       old_building_area := old_area;
       new_building_area := new_area;
       exhibition_energy := energy;
       old_building_energy := energy * (old_area / total);
       new_building_energy :=
         energy * (new_area * new_building_efficiency_factor cfg / total);
       old_building_hvac := eu_old_building_hvac eu;
       old_building_lighting := eu_old_building_lighting eu;
       old_building_other := eu_old_building_other eu;
       old_building_fan := eu_old_building_fan eu;
       new_building_hvac := eu_new_building_hvac eu;
       new_building_lighting := eu_new_building_lighting eu;
       new_building_other := eu_new_building_other eu;
       new_building_fan := eu_new_building_fan eu;
       total_hvac := eu_total_hvac eu;
       total_lighting := eu_total_lighting eu;
       total_other := eu_total_other eu;
       total_fan := eu_total_fan eu |}.
Proof.
  intros Hinit.
  destruct (init_inv _ _ _ Hinit) as (Hz & _ & _ & _).
  unfold MFAEnergySavingsTool_init, calculate_energy_allocation in Hinit.
  unfold total_effective_area in Hz.
  rewrite !py_div_ok in Hinit by exact Hz.
  cbn [mbind result_bind alloc_exhibition_energy alloc_old_building_energy
       alloc_new_building_energy] in Hinit.
  injection Hinit as <-. reflexivity.
Qed.

(** ** X2 *)

(** X2.  Constructing the engine raises exactly when the total effective
    area it computes, [old_building_area + new_building_area ×
    new_building_efficiency_factor] with the zone areas [total_area ×
    exhibition_percent × old_building_percent] and [total_area ×
    exhibition_percent × new_building_percent], is zero; the exception is
    then a [ZeroDivisionError], and in every other case the engine is
    returned with the configuration it was given. *)
Theorem X2_construction_raises_iff (cfg : BuildingConfig) (icfg : InterventionConfig) :
  (total_area cfg * exhibition_percent cfg * old_building_percent cfg
   + total_area cfg * exhibition_percent cfg * new_building_percent cfg
     * new_building_efficiency_factor cfg == 0 ->
   MFAEnergySavingsTool_init cfg icfg = Raise ZeroDivisionError)
  /\ (forall e, MFAEnergySavingsTool_init cfg icfg = Raise e ->
        e = ZeroDivisionError
        /\ total_area cfg * exhibition_percent cfg * old_building_percent cfg
           + total_area cfg * exhibition_percent cfg * new_building_percent cfg
             * new_building_efficiency_factor cfg == 0)
  /\ (~ total_area cfg * exhibition_percent cfg * old_building_percent cfg
        + total_area cfg * exhibition_percent cfg * new_building_percent cfg
          * new_building_efficiency_factor cfg == 0 ->
      exists self, MFAEnergySavingsTool_init cfg icfg = Ok self
                   /\ config self = cfg /\ interventions_config self = icfg).
Proof.
  fold (total_effective_area cfg).
  split; [|split].
  - intros H. apply init_raises_iff, H.
  - intros e He.
    destruct (Qeq_dec (total_effective_area cfg) 0) as [Hz|Hz].
    + pose proof (proj2 (init_raises_iff cfg icfg) Hz) as Hr.
      split; [congruence | exact Hz].
    + destruct (init_returns cfg icfg Hz) as (self & Hs & _). congruence.
  - intros Hz.
    destruct (init_returns cfg icfg Hz) as (self & Hinit & Hc & Hi & _).
    exists self. auto.
Qed.

Lemma X2_construction_raises_iff_witness :
  MFAEnergySavingsTool_init (with_exhibition_percent 0 default_BuildingConfig)
    default_InterventionConfig = Raise ZeroDivisionError
  /\ exists self,
       MFAEnergySavingsTool_init default_BuildingConfig default_InterventionConfig
       = Ok self.
Proof.
  split.
  - apply (X2_construction_raises_iff (with_exhibition_percent 0 default_BuildingConfig)
             default_InterventionConfig).
    vm_compute. reflexivity.
  - destruct (X2_construction_raises_iff default_BuildingConfig
                default_InterventionConfig) as (_ & _ & Hret).
    destruct Hret as (self & Hs & _); [vm_compute; discriminate|].
    exists self. exact Hs.
Defined.

(** ** X4 *)

(** X4.  [calculate_baseline] never raises, whatever the engine: a zone
    whose area is not positive is reported with EUI 0, a zone with a positive
    area with an EUI whose product with the area is the zone's energy, and
    the EUI ratio is 0 when the old-zone EUI is not positive; the areas and
    energies of the report are those of the engine. *)
Theorem X4_baseline_guards (self : MFAEnergySavingsTool) :
  exists r,
    calculate_baseline self = Ok r
    /\ (old_building_area self <= 0 -> Old_Building_EUI r = 0)
    /\ (0 < old_building_area self ->
        Old_Building_EUI r * old_building_area self == old_building_energy self)
    /\ (new_building_area self <= 0 -> New_Building_EUI r = 0)
    /\ (0 < new_building_area self ->
        New_Building_EUI r * new_building_area self == new_building_energy self)
    /\ (Old_Building_EUI r <= 0 -> EUI_Ratio r = 0)
    /\ (0 < Old_Building_EUI r ->
        EUI_Ratio r * Old_Building_EUI r == New_Building_EUI r)
    /\ Old_Building_Exhibition_Area r = old_building_area self
    /\ New_Building_Exhibition_Area r = new_building_area self
    /\ Old_Building_Energy r = old_building_energy self
    /\ New_Building_Energy r = new_building_energy self
    /\ Effective_New_Building_Area r
       = new_building_area self * new_building_efficiency_factor (config self).
Proof.
  unfold calculate_baseline.
  set (oe := if py_gt (old_building_area self) 0 then _ else _).
  assert (Ho : exists x, oe = Ok x
                /\ (old_building_area self <= 0 -> x = 0)
                /\ (0 < old_building_area self ->
                    x * old_building_area self == old_building_energy self)).
  { subst oe. destruct (py_gt (old_building_area self) 0) eqn:E.
    - apply py_gt_true in E. rewrite py_div_ok by lra.
      eexists; split; [reflexivity|]. split; [intros; lra|].
      intros _. field. lra.
    - apply py_gt_false in E.
      eexists; split; [reflexivity|]. split; [reflexivity | intros; lra]. }
  destruct Ho as (x & -> & Hx0 & Hx). cbn [mbind result_bind].
  set (ne := if py_gt (new_building_area self) 0 then _ else _).
  assert (Hn : exists y, ne = Ok y
                /\ (new_building_area self <= 0 -> y = 0)
                /\ (0 < new_building_area self ->
                    y * new_building_area self == new_building_energy self)).
  { subst ne. destruct (py_gt (new_building_area self) 0) eqn:E.
    - apply py_gt_true in E. rewrite py_div_ok by lra.
      eexists; split; [reflexivity|]. split; [intros; lra|].
      intros _. field. lra.
    - apply py_gt_false in E.
      eexists; split; [reflexivity|]. split; [reflexivity | intros; lra]. }
  destruct Hn as (y & -> & Hy0 & Hy). cbn [mbind result_bind].
  set (ra := if py_gt x 0 then _ else _).
  assert (Hr : exists w, ra = Ok w
                /\ (x <= 0 -> w = 0) /\ (0 < x -> w * x == y)).
  { subst ra. destruct (py_gt x 0) eqn:E.
    - apply py_gt_true in E. rewrite py_div_ok by lra.
      eexists; split; [reflexivity|]. split; [intros; lra|].
      intros _. field. lra.
    - apply py_gt_false in E.
      eexists; split; [reflexivity|]. split; [reflexivity | intros; lra]. }
  destruct Hr as (w & -> & Hw0 & Hw). cbn [mbind result_bind].
  eexists. split; [reflexivity|].
  cbn [Old_Building_EUI New_Building_EUI EUI_Ratio Old_Building_Exhibition_Area
       New_Building_Exhibition_Area Old_Building_Energy New_Building_Energy
       Effective_New_Building_Area].
  repeat split; assumption.
Qed.

Lemma X4_baseline_guards_witness :
  exists r,
    calculate_baseline default_tool = Ok r
    /\ Old_Building_EUI r * old_building_area default_tool
       == old_building_energy default_tool.
Proof.
  destruct (X4_baseline_guards default_tool) as (r & Hr & _ & Hold & _).
  exists r. split; [exact Hr|]. apply Hold. vm_compute. reflexivity.
Defined.

(** ** Bounds on the savings and the cap *)

Lemma engine_totals (cfg : BuildingConfig) (icfg : InterventionConfig)
    (self : MFAEnergySavingsTool) :
  MFAEnergySavingsTool_init cfg icfg = Ok self ->
  total_hvac self = old_building_hvac self + new_building_hvac self
  /\ total_lighting self = old_building_lighting self + new_building_lighting self
  /\ total_fan self = old_building_fan self + new_building_fan self
  /\ total_hvac self == total_site_energy cfg * exhibition_percent cfg * hvac_percent cfg
  /\ total_lighting self
     == total_site_energy cfg * exhibition_percent cfg * lighting_percent cfg
  /\ total_fan self == total_hvac self * fan_percent_of_hvac cfg.
Proof.
  intros Hinit. engine_fields (init_inv _ _ _ Hinit) (init_fields _ _ _ Hinit).
  split; [reflexivity|]. split; [reflexivity|]. split; [reflexivity|].
  repeat split; field; exact Hz.
Qed.

Lemma py_min_glb (a b c : Q) : c <= a -> c <= b -> c <= py_min a b.
Proof. intros Ha Hb. unfold py_min. destruct (py_gt a b); assumption. Qed.

Lemma py_min_l (a b : Q) : a <= b -> py_min a b = a.
Proof.
  intros H. unfold py_min. destruct (py_gt a b) eqn:E; [|reflexivity].
  apply py_gt_true in E. lra.
Qed.

Lemma measure_value_bounds (t_old t_new f : Q) (eff : Q -> Q)
    (i : InterventionSelection) (m : string) :
  0 <= t_old -> 0 <= t_new -> 0 <= f ->
  (forall a, 0 <= a -> a <= 1 -> 0 <= eff a /\ eff a <= 1) ->
  adoption_in_range i ->
  0 <= measure_value t_old t_new f eff i m
  /\ measure_value t_old t_new f eff i m <= f * (t_old + t_new).
Proof.
  intros Ho Hn Hf Heff Hrange. unfold measure_value.
  assert (Hof : 0 <= t_old * f) by (apply Qmult_le_0_compat; assumption).
  assert (Hnf : 0 <= t_new * f) by (apply Qmult_le_0_compat; assumption).
  destruct (i !! m) as [d|] eqn:Hm.
  - destruct (Hrange m d Hm) as [[Ho0 Ho1] [Hn0 Hn1]].
    destruct (Heff (py_get d "old" 0 / 100)) as [E1 E1']; [rewrite div_100; lra ..|].
    destruct (Heff (py_get d "new" 0 / 100)) as [E2 E2']; [rewrite div_100; lra ..|].
    set (e1 := eff (py_get d "old" 0 / 100)) in *.
    set (e2 := eff (py_get d "new" 0 / 100)) in *.
    pose proof (Qmult_le_0_compat _ _ Hof E1) as P1.
    pose proof (Qmult_le_0_compat _ _ Hnf E2) as P2.
    assert (P3 : 0 <= t_old * f * (1 - e1)) by (apply Qmult_le_0_compat; lra).
    assert (P4 : 0 <= t_new * f * (1 - e2)) by (apply Qmult_le_0_compat; lra).
    split; lra.
  - split; [lra|]. lra.
Qed.

Lemma identity_adoption_bounds (a : Q) : 0 <= a -> a <= 1 -> 0 <= a /\ a <= 1.
Proof. auto. Qed.

Lemma led_adoption_bounds (cur a : Q) :
  0 <= cur -> 0 <= a -> a <= 1 -> 0 <= py_max 0 (a - cur) /\ py_max 0 (a - cur) <= 1.
Proof.
  intros Hc Ha0 Ha1. split; [apply py_max_0_nonneg|].
  unfold py_max. destruct (py_gt (a - cur) 0); lra.
Qed.

(** Bounds on the five individual savings and on the total, for an engine
    with nonnegative target energies and factors and a selection in range. *)
Lemma savings_values_bounds (self : MFAEnergySavingsTool) (i : InterventionSelection) :
  nonneg_energies self -> nonneg_factors (interventions_config self) ->
  0 <= current_led_percentage (config self) ->
  adoption_in_range i ->
  (0 <= hvac_rightsizing_value self i
   /\ hvac_rightsizing_value self i
      <= hvac_rightsizing_factor (interventions_config self)
         * (old_building_hvac self + new_building_hvac self))
  /\ (0 <= humidity_control_value self i
      /\ humidity_control_value self i
         <= humidity_control_factor (interventions_config self)
            * (old_building_hvac self + new_building_hvac self))
  /\ (0 <= vfd_value self i
      /\ vfd_value self i
         <= vfd_factor (interventions_config self)
            * (old_building_fan self + new_building_fan self))
  /\ (0 <= led_conversion_value self i
      /\ led_conversion_value self i
         <= led_conversion_factor (interventions_config self)
            * (old_building_lighting self + new_building_lighting self))
  /\ (0 <= window_upgrade_value self i
      /\ window_upgrade_value self i
         <= window_upgrade_factor (interventions_config self)
            * (old_building_hvac self + new_building_hvac self)).
Proof.
  intros (Hoh & Hnh & Hof & Hnf & Hol & Hnl) (F1 & F2 & F3 & F4 & F5) Hcur Hrange.
  split; [apply measure_value_bounds; auto using identity_adoption_bounds|].
  split; [apply measure_value_bounds; auto using identity_adoption_bounds|].
  split; [apply measure_value_bounds; auto using identity_adoption_bounds|].
  split; [|apply measure_value_bounds; auto using identity_adoption_bounds].
  apply measure_value_bounds; auto.
  intros a Ha0 Ha1. apply led_adoption_bounds; assumption.
Qed.

Lemma plain_sum_individual_values (self : MFAEnergySavingsTool)
    (i : InterventionSelection) :
  plain_sum (individual_values self i)
  == hvac_rightsizing_value self i + humidity_control_value self i
     + vfd_value self i + led_conversion_value self i + window_upgrade_value self i.
Proof. unfold plain_sum, individual_values. cbn [fold_right snd]. ring. Qed.

Lemma total_savings_value_within (cfg : BuildingConfig) (icfg : InterventionConfig)
    (self : MFAEnergySavingsTool) (i : InterventionSelection) :
  MFAEnergySavingsTool_init cfg icfg = Ok self ->
  plausible_config cfg ->
  nonneg_factors icfg ->
  led_conversion_factor icfg <= 1 ->
  adoption_in_range i ->
  0 <= total_savings_value self i
  /\ total_savings_value self i <= total_site_energy cfg.
Proof.
  intros Hinit (Ha & [Hx0 Hx1] & Hop & Hnp & Hf & He & Hh & Hl & Hhl & [Hfan0 Hfan1] & Hcur)
    Hfac Hled Hrange.
  pose proof (nonneg_config_energies _ _ _ Hinit Ha Hx0 Hop Hnp Hf He Hh Hl Hfan0) as Hen.
  destruct (init_inv _ _ _ Hinit) as (_ & _ & Hc & Hi).
  destruct (engine_totals _ _ _ Hinit) as (Th & Tl & _ & Thv & Tlv & _).
  assert (Hfac' : nonneg_factors (interventions_config self)) by (rewrite Hi; exact Hfac).
  assert (Hcur' : 0 <= current_led_percentage (config self)) by (rewrite Hc; exact Hcur).
  destruct (savings_values_bounds self i Hen Hfac' Hcur' Hrange)
    as ([B1 _] & [B2 _] & [B3 _] & [B4 B4'] & [B5 _]).
  unfold total_savings_value.
  set (E := total_site_energy cfg * exhibition_percent cfg) in *.
  assert (HE0 : 0 <= E) by (apply Qmult_le_0_compat; assumption).
  assert (HE1 : 0 <= total_site_energy cfg * (1 - exhibition_percent cfg))
    by (apply Qmult_le_0_compat; lra).
  assert (HEh : 0 <= E * hvac_percent cfg) by (apply Qmult_le_0_compat; assumption).
  assert (HEl : 0 <= E * lighting_percent cfg) by (apply Qmult_le_0_compat; assumption).
  assert (HEr : 0 <= E * (1 - hvac_percent cfg - lighting_percent cfg))
    by (apply Qmult_le_0_compat; lra).
  assert (Hlight : 0 <= total_lighting self) by (rewrite Tlv; exact HEl).
  assert (Hledle : led_conversion_value self i <= total_lighting self).
  { rewrite Hi in B4'. rewrite Tl.
    assert (0 <= (1 - led_conversion_factor icfg)
                 * (old_building_lighting self + new_building_lighting self)).
    { apply Qmult_le_0_compat; [lra|]. rewrite <- Tl. exact Hlight. }
    lra. }
  split.
  - assert (0 <= py_min (hvac_adjacent_sum self i) (0.95 * total_hvac self)).
    { apply py_min_glb; [unfold hvac_adjacent_sum; lra | rewrite Thv; lra]. }
    lra.
  - pose proof (py_min_le_r (hvac_adjacent_sum self i) (0.95 * total_hvac self)) as Hcap.
    unfold E in *. lra.
Qed.

(** Selections built by insertion stay in range. *)
Lemma adoption_in_range_empty : adoption_in_range ∅.
Proof. intros m d Hm. rewrite lookup_empty in Hm. discriminate. Qed.

Lemma py_get_zones_old (o n : Q) : py_get (zones o n) "old" 0 = o.
Proof. unfold py_get, zones. rewrite lookup_insert_eq. reflexivity. Qed.

Lemma py_get_zones_new (o n : Q) : py_get (zones o n) "new" 0 = n.
Proof.
  unfold py_get, zones. rewrite lookup_insert_ne by discriminate.
  rewrite lookup_insert_eq. reflexivity.
Qed.

Lemma adoption_in_range_insert (i : InterventionSelection) (m : string) (o n : Q) :
  0 <= o -> o <= 100 -> 0 <= n -> n <= 100 ->
  adoption_in_range i ->
  adoption_in_range (<[m := zones o n]> i).
Proof.
  intros Ho0 Ho1 Hn0 Hn1 Hi m' d Hm.
  apply lookup_insert_Some in Hm as [ [ _ <- ] | [ _ Hm ] ].
  - rewrite py_get_zones_old, py_get_zones_new. auto.
  - exact (Hi m' d Hm).
Qed.

Lemma dashboard_selection_in_range : adoption_in_range dashboard_selection.
Proof.
  unfold dashboard_selection.
  repeat (apply adoption_in_range_insert; [vm_compute; discriminate ..|]).
  apply adoption_in_range_empty.
Qed.

Lemma savings_report_within (cfg : BuildingConfig) (icfg : InterventionConfig)
    (self : MFAEnergySavingsTool) (i : InterventionSelection) :
  MFAEnergySavingsTool_init cfg icfg = Ok self ->
  plausible_config cfg ->
  nonneg_factors icfg ->
  led_conversion_factor icfg <= 1 ->
  0 < total_site_energy cfg ->
  adoption_in_range i ->
  (0 <= Total_Savings (savings_report self i)
   /\ Total_Savings (savings_report self i) <= total_site_energy cfg)
  /\ (0 <= New_Energy_Use (savings_report self i)
      /\ New_Energy_Use (savings_report self i) <= total_site_energy cfg)
  /\ (0 <= Percent_Savings (savings_report self i)
      /\ Percent_Savings (savings_report self i) <= 100).
Proof.
  intros Hinit Hcfg Hfac Hled Hpos Hrange.
  destruct (total_savings_value_within _ _ _ i Hinit Hcfg Hfac Hled Hrange) as [T0 T1].
  destruct (init_inv _ _ _ Hinit) as (_ & Ha & Hc & _).
  cbn [savings_report Total_Savings New_Energy_Use Percent_Savings]. rewrite Hc.
  split; [split; assumption|].
  split; [split; lra|].
  assert (Hq0 : 0 <= total_savings_value self i / total_site_energy cfg).
  { apply Qle_shift_div_l; [exact Hpos | lra]. }
  assert (Hq1 : total_savings_value self i / total_site_energy cfg <= 1).
  { apply Qle_shift_div_r; [exact Hpos | lra]. }
  split; lra.
Qed.

Lemma hvac_sum_below_cap (cfg : BuildingConfig) (icfg : InterventionConfig)
    (self : MFAEnergySavingsTool) (i : InterventionSelection) :
  MFAEnergySavingsTool_init cfg icfg = Ok self ->
  nonneg_energies self ->
  nonneg_factors icfg ->
  0 <= current_led_percentage cfg ->
  hvac_rightsizing_factor icfg + humidity_control_factor icfg
  + vfd_factor icfg * fan_percent_of_hvac cfg + window_upgrade_factor icfg <= 0.95 ->
  adoption_in_range i ->
  hvac_adjacent_sum self i <= 0.95 * total_hvac self.
Proof.
  intros Hinit Hen Hfac Hcur Hsmall Hrange.
  destruct (init_inv _ _ _ Hinit) as (_ & _ & Hc & Hi).
  destruct (engine_totals _ _ _ Hinit) as (Th & _ & Tf & _ & _ & Tfv).
  assert (Hfac' : nonneg_factors (interventions_config self)) by (rewrite Hi; exact Hfac).
  assert (Hcur' : 0 <= current_led_percentage (config self)) by (rewrite Hc; exact Hcur).
  destruct (savings_values_bounds self i Hen Hfac' Hcur' Hrange)
    as ([_ B1] & [_ B2] & [_ B3] & _ & [_ B5]).
  rewrite Hi in B1, B2, B3, B5.
  destruct Hen as (Hoh & Hnh & _).
  assert (Th' : total_hvac self == old_building_hvac self + new_building_hvac self)
    by (rewrite Th; reflexivity).
  assert (Tf' : total_fan self == old_building_fan self + new_building_fan self)
    by (rewrite Tf; reflexivity).
  assert (Hhvac : 0 <= total_hvac self) by lra.
  rewrite <- Th' in B1, B2, B5. rewrite <- Tf' in B3.
  assert (Hslack : 0 <= (0.95 - (hvac_rightsizing_factor icfg + humidity_control_factor icfg
                                 + vfd_factor icfg * fan_percent_of_hvac cfg
                                 + window_upgrade_factor icfg)) * total_hvac self).
  { apply Qmult_le_0_compat; lra. }
  assert (Hfan : vfd_factor icfg * total_fan self
                 == vfd_factor icfg * fan_percent_of_hvac cfg * total_hvac self).
  { rewrite Tfv. ring. }
  unfold hvac_adjacent_sum. lra.
Qed.

Lemma total_is_plain_sum (self : MFAEnergySavingsTool) (i : InterventionSelection) :
  hvac_adjacent_sum self i <= 0.95 * total_hvac self ->
  Total_Savings (savings_report self i)
  == plain_sum (Individual_Savings (savings_report self i)).
Proof.
  intros Hbelow. cbn [savings_report Individual_Savings Total_Savings].
  rewrite plain_sum_individual_values. unfold total_savings_value.
  rewrite (py_min_l _ _ Hbelow). unfold hvac_adjacent_sum. ring.
Qed.

(** ** X9 *)

Lemma measure_value_same (t_old t_new f : Q) (eff : Q -> Q)
    (i i' : InterventionSelection) (m : string) :
  i !! m = i' !! m ->
  measure_value t_old t_new f eff i m = measure_value t_old t_new f eff i' m.
Proof. intros H. unfold measure_value. rewrite H. reflexivity. Qed.

Lemma cost_value_same (self : MFAEnergySavingsTool) (i i' : InterventionSelection)
    (table : list (string * ZoneCost)) (acc : Q) :
  (forall m, In m (map fst table) -> i !! m = i' !! m) ->
  cost_value self i table acc = cost_value self i' table acc.
Proof.
  revert acc. induction table as [|[m details] rest IH]; intros acc Hsame; [reflexivity|].
  cbn [cost_value]. rewrite (Hsame m) by (left; reflexivity).
  destruct (i' !! m); apply IH; intros m' Hin; apply Hsame; right; exact Hin.
Qed.

(** X9.  Only the entries under the five measure names are read: two
    selections that agree on those five keys get the same result (value or
    exception) from [calculate_savings] and from
    [estimate_costs_and_payback]; in particular an entry under any other
    name changes nothing. *)
Theorem X9_only_the_five_measures_are_read (self : MFAEnergySavingsTool)
    (i i' : InterventionSelection) (sr : SavingsResult) (cf : CostFactors) :
  same_measures i i' ->
  calculate_savings self i = calculate_savings self i'
  /\ estimate_costs_and_payback self i sr cf = estimate_costs_and_payback self i' sr cf.
Proof.
  intros Hsame. split.
  - rewrite !calculate_savings_closed.
    unfold total_savings_value, hvac_adjacent_sum, individual_values,
      hvac_rightsizing_value, humidity_control_value, vfd_value, led_conversion_value,
      window_upgrade_value.
    rewrite (measure_value_same _ _ _ _ i i' "hvac_rightsizing"),
      (measure_value_same _ _ _ _ i i' "humidity_control"),
      (measure_value_same _ _ _ _ i i' "vfd"),
      (measure_value_same _ _ _ _ i i' "led_conversion"),
      (measure_value_same _ _ _ _ i i' "window_upgrades");
      try (apply Hsame; cbn; tauto).
    reflexivity.
  - rewrite !estimate_closed. unfold financial_report.
    rewrite (cost_value_same self i i'); [reflexivity|].
    intros m Hin. apply Hsame. exact Hin.
Qed.

Lemma X9_only_the_five_measures_are_read_witness :
  calculate_savings default_tool (<["solar_panels" := zones 100 100]> dashboard_selection)
  = calculate_savings default_tool dashboard_selection.
Proof.
  apply (X9_only_the_five_measures_are_read default_tool _ dashboard_selection
           (savings_report default_tool dashboard_selection) default_CostFactors).
  intros m Hin. apply lookup_insert_ne.
  cbn in Hin. intros <-.
  repeat (destruct Hin as [Hin|Hin]; [discriminate|]). exact Hin.
Defined.

(** ** X11 *)

(** X11.  LED conversion is charged on the requested adoption but saves only
    on the increment: when LED conversion is the only measure selected and
    both requested percentages are at most [100 × current_led_percentage]
    (one of them positive, on an engine with positive zone areas), the
    financial report has annual cost savings 0, a positive implementation
    cost of 8 $/sq ft over the requested shares of the zone areas, and an
    infinite payback. *)
Theorem X11_led_charged_without_savings (self : MFAEnergySavingsTool)
    (o n : Q) (sr : SavingsResult) (cf : CostFactors) :
  0 < old_building_area self ->
  0 < new_building_area self ->
  0 <= o -> 0 <= n -> 0 < o + n ->
  o <= 100 * current_led_percentage (config self) ->
  n <= 100 * current_led_percentage (config self) ->
  ~ kbtu_to_kwh cf == 0 ->
  ~ kbtu_to_therm cf == 0 ->
  calculate_savings self (led_selection o n) = Ok sr ->
  exists r,
    estimate_costs_and_payback self (led_selection o n) sr cf = Ok r
    /\ Annual_Cost_Savings r == 0
    /\ Implementation_Cost_Estimate r
       == 8 * (old_building_area self * (o / 100) + new_building_area self * (n / 100))
    /\ 0 < Implementation_Cost_Estimate r
    /\ Simple_Payback r = PosInf.
Proof.
  intros Hoa Hna Ho Hn Hon Hole Hnle Hk Ht Hsr.
  apply calculate_savings_inv in Hsr as (-> & _ & _).
  set (i := led_selection o n).
  exists (financial_report self i (savings_report self i) cf).
  split; [apply estimate_returns; assumption|].
  assert (Hother : forall m : string, m <> "led_conversion"%string -> i !! m = None).
  { intros m Hm. subst i. unfold led_selection.
    rewrite lookup_insert_ne by congruence. apply lookup_empty. }
  assert (Hentry : i !! "led_conversion" = Some (zones o n)) by apply lookup_insert_eq.
  assert (H1 : hvac_rightsizing_value self i = 0).
  { unfold hvac_rightsizing_value, measure_value. rewrite Hother by discriminate.
    reflexivity. }
  assert (H2 : humidity_control_value self i = 0).
  { unfold humidity_control_value, measure_value. rewrite Hother by discriminate.
    reflexivity. }
  assert (H3 : vfd_value self i = 0).
  { unfold vfd_value, measure_value. rewrite Hother by discriminate. reflexivity. }
  assert (H5 : window_upgrade_value self i = 0).
  { unfold window_upgrade_value, measure_value. rewrite Hother by discriminate.
    reflexivity. }
  assert (H4 : led_conversion_value self i == 0).
  { unfold led_conversion_value, measure_value.
    rewrite Hentry, py_get_zones_old, py_get_zones_new.
    rewrite !py_max_0_nonpos by (rewrite div_100; lra). ring. }
  assert (Hannual : Annual_Cost_Savings (financial_report self i (savings_report self i) cf)
                    == 0).
  { unfold financial_report.
    cbn [Annual_Cost_Savings savings_report Individual_Savings].
    rewrite split_individual_values. cbn [fst snd].
    rewrite H1, H2, H3, H5, H4. field. split; assumption. }
  assert (Hcost : Implementation_Cost_Estimate
                    (financial_report self i (savings_report self i) cf)
                  == 8 * (old_building_area self * (o / 100)
                          + new_building_area self * (n / 100))).
  { unfold financial_report. cbn [Implementation_Cost_Estimate].
    unfold implementation_costs. cbn [cost_value].
    repeat (first [rewrite Hother by discriminate | rewrite Hentry]).
    rewrite py_get_zones_old, py_get_zones_new.
    cbn [cost_old cost_new]. ring. }
  split; [exact Hannual|]. split; [exact Hcost|]. split.
  - rewrite Hcost, !div_100.
    assert (0 <= old_building_area self * o) by (apply Qmult_le_0_compat; lra).
    assert (0 <= new_building_area self * n) by (apply Qmult_le_0_compat; lra).
    destruct (Qlt_le_dec 0 o) as [Hpo|Hzo].
    + assert (0 < old_building_area self * o) by (apply Qmult_lt_0_compat; lra). lra.
    + assert (0 < new_building_area self * n) by (apply Qmult_lt_0_compat; lra). lra.
  - unfold financial_report in *. cbn [Simple_Payback Annual_Cost_Savings] in *.
    unfold payback_value.
    rewrite (proj2 (py_gt_false _ 0)) by (rewrite Hannual; lra). reflexivity.
Qed.

Lemma X11_led_charged_without_savings_witness :
  exists r,
    estimate_costs_and_payback default_tool (led_selection 70 50)
      (savings_report default_tool (led_selection 70 50)) default_CostFactors = Ok r
    /\ Annual_Cost_Savings r == 0
    /\ 0 < Implementation_Cost_Estimate r
    /\ Simple_Payback r = PosInf.
Proof.
  destruct (X11_led_charged_without_savings default_tool 70 50
              (savings_report default_tool (led_selection 70 50)) default_CostFactors)
    as (r & Hr & Ha & _ & Hc & Hp).
  - vm_compute. reflexivity.
  - vm_compute. reflexivity.
  - vm_compute. discriminate.
  - vm_compute. discriminate.
  - vm_compute. reflexivity.
  - vm_compute. discriminate.
  - vm_compute. discriminate.
  - vm_compute. discriminate.
  - vm_compute. discriminate.
  - apply calculate_savings_returns; vm_compute; discriminate.
  - exists r. repeat split; assumption.
Defined.

(** ** X12 *)

(** X12.  The energy-source split of the financial report: with the five
    individual savings [s_hvac .. s_win] of the selection and non-zero unit
    conversions, electricity savings are
    [(0.40 s_hvac + 0.30 s_hum + s_vfd + s_led + 0.25 s_win) / kbtu_to_kwh ×
    elec_rate] and natural-gas savings
    [(0.60 s_hvac + 0.70 s_hum + 0.75 s_win) / kbtu_to_therm × gas_rate] (VFD
    and LED savings are all electric); the CO2 figures use the same two
    quantities with the emission factors, and the annual and CO2 totals are
    the sums of their two parts. *)
Theorem X12_energy_source_split (self : MFAEnergySavingsTool)
    (i : InterventionSelection) (sr : SavingsResult) (cf : CostFactors) :
  calculate_savings self i = Ok sr ->
  ~ kbtu_to_kwh cf == 0 ->
  ~ kbtu_to_therm cf == 0 ->
  exists s_hvac s_hum s_vfd s_led s_win r,
    _calculate_hvac_rightsizing_savings self i = Ok s_hvac
    /\ _calculate_humidity_control_savings self i = Ok s_hum
    /\ _calculate_vfd_savings self i = Ok s_vfd
    /\ _calculate_led_conversion_savings self i = Ok s_led
    /\ _calculate_window_upgrade_savings self i = Ok s_win
    /\ estimate_costs_and_payback self i sr cf = Ok r
    /\ Electricity_Savings r
       == (0.40 * s_hvac + 0.30 * s_hum + s_vfd + s_led + 0.25 * s_win)
          / kbtu_to_kwh cf * elec_rate cf
    /\ Natural_Gas_Savings r
       == (0.60 * s_hvac + 0.70 * s_hum + 0.75 * s_win)
          / kbtu_to_therm cf * gas_rate cf
    /\ Annual_Cost_Savings r == Electricity_Savings r + Natural_Gas_Savings r
    /\ Electricity_CO2_Reduction r
       == (0.40 * s_hvac + 0.30 * s_hum + s_vfd + s_led + 0.25 * s_win)
          / kbtu_to_kwh cf * co2_factor_elec cf
    /\ Natural_Gas_CO2_Reduction r
       == (0.60 * s_hvac + 0.70 * s_hum + 0.75 * s_win)
          / kbtu_to_therm cf * co2_factor_gas cf
    /\ CO2_Reduction r == Electricity_CO2_Reduction r + Natural_Gas_CO2_Reduction r.
Proof.
  intros Hsr Hk Ht. apply calculate_savings_inv in Hsr as (-> & _ & _).
  exists (hvac_rightsizing_value self i), (humidity_control_value self i),
    (vfd_value self i), (led_conversion_value self i), (window_upgrade_value self i),
    (financial_report self i (savings_report self i) cf).
  split; [apply hvac_rightsizing_closed|].
  split; [apply humidity_control_closed|].
  split; [apply vfd_closed|].
  split; [apply led_conversion_closed|].
  split; [apply window_upgrade_closed|].
  split; [apply estimate_returns; assumption|].
  unfold financial_report.
  cbn [Annual_Cost_Savings Electricity_Savings Natural_Gas_Savings CO2_Reduction
       Electricity_CO2_Reduction Natural_Gas_CO2_Reduction savings_report
       Individual_Savings].
  rewrite split_individual_values. cbn [fst snd].
  repeat split; try reflexivity; field; assumption.
Qed.

Lemma X12_energy_source_split_witness :
  exists r,
    estimate_costs_and_payback default_tool dashboard_selection
      (savings_report default_tool dashboard_selection) default_CostFactors = Ok r
    /\ Annual_Cost_Savings r == Electricity_Savings r + Natural_Gas_Savings r.
Proof.
  destruct (X12_energy_source_split default_tool dashboard_selection
              (savings_report default_tool dashboard_selection) default_CostFactors)
    as (s1 & s2 & s3 & s4 & s5 & r & _ & _ & _ & _ & _ & Hr & _ & _ & Ha & _).
  - apply calculate_savings_returns; vm_compute; discriminate.
  - vm_compute. discriminate.
  - vm_compute. discriminate.
  - exists r. split; assumption.
Defined.

(** ** X13 *)

Lemma split_value_known (items : list (string * Q)) (acc : Q * Q) :
  split_value (known_savings items) acc = split_value items acc.
Proof.
  revert acc. induction items as [|[measure savings] rest IH]; intros acc; [reflexivity|].
  unfold known_savings in *. cbn [List.filter fst split_value]. unfold alist_in.
  destruct (alist_get elec_gas_split measure) as [sp|] eqn:E.
  - cbn [split_value]. rewrite E. apply IH.
  - apply IH.
Qed.

(** X13.  [estimate_costs_and_payback] skips the entries of the savings
    dictionary whose name has no energy-source split: the result (value or
    exception) is the same as on the dictionary with those entries
    removed. *)
Theorem X13_unknown_savings_entries_skipped (self : MFAEnergySavingsTool)
    (i : InterventionSelection) (sr : SavingsResult) (cf : CostFactors) :
  estimate_costs_and_payback self i sr cf
  = estimate_costs_and_payback self i
      (with_individual_savings (known_savings (Individual_Savings sr)) sr) cf.
Proof.
  rewrite !estimate_closed. unfold financial_report.
  cbn [with_individual_savings Individual_Savings].
  rewrite !split_value_known. reflexivity.
Qed.

(** ** X14 *)

Lemma cost_value_bounds (self : MFAEnergySavingsTool) (i : InterventionSelection)
    (table : list (string * ZoneCost)) (acc : Q) :
  0 <= old_building_area self -> 0 <= new_building_area self ->
  adoption_in_range i ->
  (forall row, In row table -> 0 <= cost_old (snd row) /\ 0 <= cost_new (snd row)) ->
  acc <= cost_value self i table acc
  /\ cost_value self i table acc <= acc + table_cost_cap self table.
Proof.
  intros Ho Hn Hrange. revert acc.
  induction table as [|[m details] rest IH]; intros acc Hcosts.
  - cbn. split; lra.
  - assert (Hrest : forall row, In row rest ->
                      0 <= cost_old (snd row) /\ 0 <= cost_new (snd row))
      by (intros row Hin; apply Hcosts; right; exact Hin).
    destruct (Hcosts (m, details)) as [Hco Hcn]; [left; reflexivity|].
    cbn [snd] in Hco, Hcn.
    assert (Hao : 0 <= old_building_area self * cost_old details)
      by (apply Qmult_le_0_compat; assumption).
    assert (Han : 0 <= new_building_area self * cost_new details)
      by (apply Qmult_le_0_compat; assumption).
    cbn [cost_value table_cost_cap fold_right snd].
    fold (table_cost_cap self rest).
    destruct (i !! m) as [d|] eqn:Hm.
    + destruct (Hrange m d Hm) as [[Ho0 Ho1] [Hn0 Hn1]].
      set (a := py_get d "old" 0 / 100). set (b := py_get d "new" 0 / 100).
      assert (Ha : 0 <= a /\ a <= 1) by (subst a; rewrite div_100; lra).
      assert (Hb : 0 <= b /\ b <= 1) by (subst b; rewrite div_100; lra).
      assert (P1 : 0 <= old_building_area self * cost_old details * a)
        by (apply Qmult_le_0_compat; lra).
      assert (P2 : 0 <= new_building_area self * cost_new details * b)
        by (apply Qmult_le_0_compat; lra).
      assert (P3 : 0 <= old_building_area self * cost_old details * (1 - a))
        by (apply Qmult_le_0_compat; lra).
      assert (P4 : 0 <= new_building_area self * cost_new details * (1 - b))
        by (apply Qmult_le_0_compat; lra).
      destruct (IH (acc + (old_building_area self * cost_old details * a
                           + new_building_area self * cost_new details * b)) Hrest)
        as [L U].
      split; lra.
    + destruct (IH acc Hrest) as [L U]. split; lra.
Qed.

(** X14.  The implementation cost is never negative: on an engine with
    nonnegative zone areas, whenever [estimate_costs_and_payback] returns,
    every selection with adoption percentages in [0, 100] has an
    implementation cost of at least 0, and a selection with none of the five
    measures costs exactly 0. *)
Theorem X14_implementation_cost_nonnegative (self : MFAEnergySavingsTool)
    (i : InterventionSelection) (sr : SavingsResult) (cf : CostFactors)
    (r : FinancialReport) :
  0 <= old_building_area self ->
  0 <= new_building_area self ->
  estimate_costs_and_payback self i sr cf = Ok r ->
  (adoption_in_range i -> 0 <= Implementation_Cost_Estimate r)
  /\ ((forall m, In m measure_keys -> i !! m = None) ->
      Implementation_Cost_Estimate r = 0).
Proof.
  intros Ho Hn Hr. apply estimate_inv in Hr. subst r.
  unfold financial_report. cbn [Implementation_Cost_Estimate].
  split.
  - intros Hrange.
    destruct (cost_value_bounds self i implementation_costs 0 Ho Hn Hrange) as [L U].
    { intros row Hin. cbn in Hin.
      repeat (destruct Hin as [<-|Hin]; [split; vm_compute; discriminate|]).
      contradiction. }
    exact L.
  - intros Hnone. unfold implementation_costs. cbn [cost_value].
    rewrite !Hnone by (cbn; tauto). reflexivity.
Qed.

Lemma X14_implementation_cost_nonnegative_witness :
  exists r,
    estimate_costs_and_payback default_tool dashboard_selection
      (savings_report default_tool dashboard_selection) default_CostFactors = Ok r
    /\ 0 <= Implementation_Cost_Estimate r.
Proof.
  assert (Hr : estimate_costs_and_payback default_tool dashboard_selection
                 (savings_report default_tool dashboard_selection) default_CostFactors
               = Ok (financial_report default_tool dashboard_selection
                       (savings_report default_tool dashboard_selection)
                       default_CostFactors)).
  { apply estimate_returns; vm_compute; discriminate. }
  eexists. split; [exact Hr|].
  apply (X14_implementation_cost_nonnegative default_tool dashboard_selection
           (savings_report default_tool dashboard_selection) default_CostFactors).
  - vm_compute. discriminate.
  - vm_compute. discriminate.
  - exact Hr.
  - exact dashboard_selection_in_range.
Defined.

(** * Properties of the dashboard's use of the engine *)

Lemma inject_Z_in_range (z : Z) :
  (0 <= z <= 100)%Z -> 0 <= inject_Z z /\ inject_Z z <= 100.
Proof.
  intros [H0 H1]. split.
  - change 0 with (inject_Z 0). rewrite <- Zle_Qle. exact H0.
  - change 100 with (inject_Z 100). rewrite <- Zle_Qle. exact H1.
Qed.

Lemma both_zones_empty : both_zones ∅.
Proof. intros m d Hm. rewrite lookup_empty in Hm. discriminate. Qed.

Lemma both_zones_insert (i : InterventionSelection) (m : string) (o n : Q) :
  both_zones i -> both_zones (<[m := zones o n]> i).
Proof.
  intros Hi m' d Hm.
  apply lookup_insert_Some in Hm as [ [ _ <- ] | [ _ Hm ] ]; [|exact (Hi m' d Hm)].
  unfold zones. split.
  - rewrite lookup_insert_eq. eauto.
  - rewrite lookup_insert_ne by discriminate. rewrite lookup_insert_eq. eauto.
Qed.

Lemma py_truthy_empty {V : Type} : py_truthy (∅ : gmap string V) = false.
Proof. unfold py_truthy. rewrite map_size_empty. reflexivity. Qed.

Lemma py_truthy_insert {V : Type} (d : gmap string V) (k : string) (v : V) :
  py_truthy (<[k := v]> d) = true.
Proof.
  unfold py_truthy. destruct (size (<[k := v]> d)) eqn:E; [|reflexivity].
  apply map_size_empty_iff in E. apply insert_non_empty in E. contradiction.
Qed.

Lemma controls_in_range (mfa_tool : MFAEnergySavingsTool) (w : Widgets) :
  sliders_in_range w -> adoption_in_range (create_intervention_controls mfa_tool w).
Proof.
  intros (H1 & H2 & H3 & H4 & H5 & H6 & H7 & H8 & H9 & H10).
  apply inject_Z_in_range in H1, H2, H3, H4, H5, H6, H7, H8, H9, H10.
  unfold create_intervention_controls.
  destruct (use_hvac w), (use_humidity w), (use_vfd w), (use_led w), (use_windows w);
    repeat (apply adoption_in_range_insert; [tauto ..|]); apply adoption_in_range_empty.
Qed.

Lemma controls_truthy (mfa_tool : MFAEnergySavingsTool) (w : Widgets) :
  py_truthy (create_intervention_controls mfa_tool w)
  = use_hvac w || use_humidity w || use_vfd w || use_led w || use_windows w.
Proof.
  unfold create_intervention_controls.
  destruct (use_hvac w), (use_humidity w), (use_vfd w), (use_led w), (use_windows w);
    rewrite ?py_truthy_insert, ?py_truthy_empty; reflexivity.
Qed.

(** ** X16 *)

(** X16.  The selection built by the controls: a measure's key is present
    exactly when its checkbox is checked, with the two slider values under
    ['old'] and ['new']; no other key is present; every entry has both zone
    keys; with the sliders in their range 0..100 every adoption percentage is
    in range; and the selection is non-empty exactly when some checkbox is
    checked. *)
Theorem X16_controls_selection (mfa_tool : MFAEnergySavingsTool) (w : Widgets) :
  create_intervention_controls mfa_tool w !! "hvac_rightsizing"
  = (if use_hvac w
     then Some (zones (inject_Z (hvac_old w)) (inject_Z (hvac_new w))) else None)
  /\ create_intervention_controls mfa_tool w !! "humidity_control"
     = (if use_humidity w
        then Some (zones (inject_Z (humidity_old w)) (inject_Z (humidity_new w)))
        else None)
  /\ create_intervention_controls mfa_tool w !! "vfd"
     = (if use_vfd w
        then Some (zones (inject_Z (vfd_old w)) (inject_Z (vfd_new w))) else None)
  /\ create_intervention_controls mfa_tool w !! "led_conversion"
     = (if use_led w
        then Some (zones (inject_Z (led_old w)) (inject_Z (led_new w))) else None)
  /\ create_intervention_controls mfa_tool w !! "window_upgrades"
     = (if use_windows w
        then Some (zones (inject_Z (windows_old w)) (inject_Z (windows_new w)))
        else None)
  /\ (forall m, ~ In m measure_keys -> create_intervention_controls mfa_tool w !! m = None)
  /\ both_zones (create_intervention_controls mfa_tool w)
  /\ (sliders_in_range w -> adoption_in_range (create_intervention_controls mfa_tool w))
  /\ py_truthy (create_intervention_controls mfa_tool w)
     = use_hvac w || use_humidity w || use_vfd w || use_led w || use_windows w.
Proof.
  unfold create_intervention_controls.
  split; [|split; [|split; [|split; [|split; [|split; [|split; [|split]]]]]]].
  1-5: destruct (use_hvac w), (use_humidity w), (use_vfd w), (use_led w), (use_windows w);
       rewrite ?lookup_insert_eq, ?lookup_insert_ne by discriminate;
       rewrite ?lookup_insert_eq, ?lookup_insert_ne by discriminate;
       rewrite ?lookup_insert_eq, ?lookup_insert_ne by discriminate;
       rewrite ?lookup_insert_eq, ?lookup_insert_ne by discriminate;
       rewrite ?lookup_insert_eq, ?lookup_insert_ne by discriminate;
       rewrite ?lookup_empty; reflexivity.
  - intros m Hm.
    assert (Hne : forall k, In k measure_keys -> k <> m) by (intros k Hk <-; exact (Hm Hk)).
    destruct (use_hvac w), (use_humidity w), (use_vfd w), (use_led w), (use_windows w);
      rewrite ?lookup_insert_ne by (apply Hne; cbn; tauto); apply lookup_empty.
  - destruct (use_hvac w), (use_humidity w), (use_vfd w), (use_led w), (use_windows w);
      repeat apply both_zones_insert; apply both_zones_empty.
  - exact (controls_in_range mfa_tool w).
  - exact (controls_truthy mfa_tool w).
Qed.

Lemma X16_controls_selection_witness :
  adoption_in_range (create_intervention_controls default_tool initial_Widgets).
Proof.
  apply (X16_controls_selection default_tool initial_Widgets).
  unfold sliders_in_range, initial_Widgets. cbn. lia.
Defined.

(** ** X17 *)

Lemma default_config_plausible : plausible_config default_BuildingConfig.
Proof. repeat split; vm_compute; discriminate. Qed.

Lemma default_factors_nonneg : nonneg_factors default_InterventionConfig.
Proof. repeat split; vm_compute; discriminate. Qed.

Lemma default_tool_nonneg : nonneg_energies default_tool.
Proof. repeat split; vm_compute; discriminate. Qed.

(** X17.  The engine calls of the dashboard never raise: for every state of
    the widgets the engine is constructed from the default configuration and
    the baseline report is computed; the savings and financial reports are
    computed exactly when some checkbox is checked; and with the sliders in
    their range 0..100 the Percent Savings shown is between 0 and 100, Total
    Savings is the plain sum of the individual savings (the cap never binds
    on the dashboard) and the implementation cost is nonnegative. *)
Theorem X17_dashboard_engine_calls_return (w : Widgets) :
  exists baseline out,
    create_streamlit_app w = Ok (baseline, out)
    /\ (out = None
        <-> use_hvac w || use_humidity w || use_vfd w || use_led w || use_windows w
            = false)
    /\ (sliders_in_range w ->
        forall sr fr, out = Some (sr, fr) ->
          (0 <= Percent_Savings sr /\ Percent_Savings sr <= 100)
          /\ Total_Savings sr == plain_sum (Individual_Savings sr)
          /\ 0 <= Implementation_Cost_Estimate fr).
Proof.
  unfold create_streamlit_app. rewrite default_tool_init. cbn [mbind result_bind].
  destruct (calculate_baseline_returns default_tool) as (b & Hb & _).
  rewrite Hb. cbn [mbind result_bind].
  set (i := create_intervention_controls default_tool w).
  pose proof (controls_truthy default_tool w) as Ht. fold i in Ht.
  destruct (py_truthy i) eqn:E.
  - rewrite calculate_savings_returns by (vm_compute; discriminate).
    cbn [mbind result_bind].
    rewrite estimate_returns by (vm_compute; discriminate).
    cbn [mbind result_bind].
    eexists _, _. split; [reflexivity|]. split.
    + split; [discriminate | intros H; congruence].
    + intros Hs sr fr [= <- <-].
      pose proof (controls_in_range default_tool w Hs) as Hrange. fold i in Hrange.
      split; [|split].
      * apply (savings_report_within default_BuildingConfig default_InterventionConfig);
          [ exact default_tool_init | exact default_config_plausible
          | exact default_factors_nonneg | vm_compute; discriminate
          | vm_compute; reflexivity | exact Hrange ].
      * apply total_is_plain_sum.
        apply (hvac_sum_below_cap default_BuildingConfig default_InterventionConfig);
          [ exact default_tool_init | exact default_tool_nonneg
          | exact default_factors_nonneg | vm_compute; discriminate
          | vm_compute; discriminate | exact Hrange ].
      * unfold financial_report. cbn [Implementation_Cost_Estimate].
        apply (cost_value_bounds default_tool i implementation_costs 0);
          [ vm_compute; discriminate | vm_compute; discriminate | exact Hrange |].
        intros row Hin. cbn in Hin.
        repeat (destruct Hin as [<-|Hin]; [split; vm_compute; discriminate|]).
        contradiction.
  - eexists _, _. split; [reflexivity|]. split.
    + split; [intros _; symmetry; exact Ht | reflexivity].
    + intros _ sr fr [=].
Qed.

Lemma X17_dashboard_engine_calls_return_witness :
  exists baseline sr fr,
    create_streamlit_app initial_Widgets = Ok (baseline, Some (sr, fr))
    /\ (0 <= Percent_Savings sr /\ Percent_Savings sr <= 100).
Proof.
  destruct (X17_dashboard_engine_calls_return initial_Widgets)
    as (baseline & out & Happ & Hnone & Hin).
  destruct out as [[sr fr]|].
  - exists baseline, sr, fr. split; [exact Happ|].
    apply (Hin ltac:(unfold sliders_in_range, initial_Widgets; cbn; lia) sr fr eq_refl).
  - exfalso. destruct Hnone as [Hnone _]. specialize (Hnone eq_refl). discriminate Hnone.
Defined.
